(** * wolfEngine digest adapter (src/digest.c): model and verification

    The adapter plugs wolfCrypt hashing into OpenSSL's EVP_MD interface.
    Two external libraries meet in it:

    - wolfCrypt, the hash engine.  It is an interface here ([HashEngine]);
      every adapter function is written against an arbitrary instance.
    - OpenSSL's EVP_MD_meth_* constructor family.  Descriptors live in a
      heap ([gmap]) and every constructor call has an outcome supplied by
      the environment ([MethOutcome]).

    Adapter functions run in a small state-and-fault monad.  The state is
    the digest context's private data block together with the log of
    engine entry points called so far; a fault ([None]) is a dereference
    of a null or released pointer by the adapter itself. *)

From Stdlib Require Import ZArith List Lia.
From Stdlib.Strings Require Import Byte.
From stdpp Require Import base option list gmap functions.

Local Open Scope Z_scope.

(** ** C scalars *)

(** [(word32)len]: conversion of a [size_t] to wolfCrypt's 32-bit unsigned
    type keeps the low 32 bits. *)
Definition word32 (len : Z) : Z := len mod 2 ^ 32.

(** C's [!=] and [==] on [int], as booleans. *)
Definition int_ne (a b : Z) : bool := negb (a =? b).
Definition int_eq (a b : Z) : bool := a =? b.

(** ** wolfCrypt: hash types and the engine interface *)

(** The members of [enum wc_HashType] that digest.c binds to a session. *)
Inductive wc_HashType : Type :=
| WC_HASH_TYPE_SHA256
| WC_HASH_TYPE_SHA384
| WC_HASH_TYPE_SHA512
| WC_HASH_TYPE_SHA3_224
| WC_HASH_TYPE_SHA3_256
| WC_HASH_TYPE_SHA3_384
| WC_HASH_TYPE_SHA3_512.

#[global] Instance wc_HashType_eq_dec : EqDecision wc_HashType.
Proof. solve_decision. Defined.

(** Digest-size constants of the wolfCrypt headers, in bytes. *)
Definition WC_SHA256_DIGEST_SIZE : Z := 32.
Definition WC_SHA384_DIGEST_SIZE : Z := 48.
Definition WC_SHA512_DIGEST_SIZE : Z := 64.
Definition WC_SHA3_224_DIGEST_SIZE : Z := 28.
Definition WC_SHA3_256_DIGEST_SIZE : Z := 32.
Definition WC_SHA3_384_DIGEST_SIZE : Z := 48.
Definition WC_SHA3_512_DIGEST_SIZE : Z := 64.

(** wolfCrypt's [wc_HashGetDigestSize]: the size table of the engine. *)
Definition wc_HashGetDigestSize (t : wc_HashType) : Z :=
  match t with
  | WC_HASH_TYPE_SHA256 => WC_SHA256_DIGEST_SIZE
  | WC_HASH_TYPE_SHA384 => WC_SHA384_DIGEST_SIZE
  | WC_HASH_TYPE_SHA512 => WC_SHA512_DIGEST_SIZE
  | WC_HASH_TYPE_SHA3_224 => WC_SHA3_224_DIGEST_SIZE
  | WC_HASH_TYPE_SHA3_256 => WC_SHA3_256_DIGEST_SIZE
  | WC_HASH_TYPE_SHA3_384 => WC_SHA3_384_DIGEST_SIZE
  | WC_HASH_TYPE_SHA3_512 => WC_SHA3_512_DIGEST_SIZE
  end.

(** wolfCrypt's status for a bad argument. *)
Definition BAD_FUNC_ARG : Z := -173.

(** The engine.  A handle is a value of [wc_Sha256] (fixed-function) or
    [wc_HashAlg] (generic); an entry point maps the handle it is given to
    an [int] status and the handle it leaves behind.  [update] receives the
    caller's buffer and the 32-bit size; [final] also yields the bytes it
    stores through the output pointer.  [wc_Sha256_null] is the status the
    fixed-function entry points report when handed a null handle. *)
Class HashEngine : Type := {
  wc_Sha256 : Type;
  wc_HashAlg : Type;
  wc_InitSha256 : wc_Sha256 -> Z * wc_Sha256;
  wc_Sha256Update : wc_Sha256 -> list byte -> Z -> Z * wc_Sha256;
  wc_Sha256Final : wc_Sha256 -> Z * wc_Sha256 * list byte;
  wc_Sha256Free : wc_Sha256 -> wc_Sha256;
  wc_Sha256_null : Z;
  wc_HashInit : wc_HashAlg -> wc_HashType -> Z * wc_HashAlg;
  wc_HashUpdate :
    wc_HashAlg -> wc_HashType -> list byte -> Z -> Z * wc_HashAlg;
  wc_HashFinal : wc_HashAlg -> wc_HashType -> Z * wc_HashAlg * list byte;
  wc_HashFree : wc_HashAlg -> wc_HashType -> Z * wc_HashAlg
}.

(** One entry in the log of engine entry points, with the arguments that
    select the algorithm and the data. *)
Inductive EngineCall : Type :=
| Call_wc_InitSha256
| Call_wc_Sha256Update (data : list byte) (sz : Z)
| Call_wc_Sha256Final
| Call_wc_Sha256Free
| Call_wc_HashInit (t : wc_HashType)
| Call_wc_HashUpdate (t : wc_HashType) (data : list byte) (sz : Z)
| Call_wc_HashFinal (t : wc_HashType)
| Call_wc_HashFree (t : wc_HashType).

(** ** Build configuration *)

(** The preprocessor symbols digest.c branches on, and the two [sizeof]
    values it registers.  [HAVE_FIPS_VERSION = None] is "not defined".
    [legacy_pkey = Some bs] is a build with WE_HAVE_EVP_PKEY against
    OpenSSL older than 1.1.0, where [bs] are the bytes XMEMCPY takes from
    the table of we_pkey_get_nids (a function of another file). *)
Record BuildConfig : Type := {
  HAVE_FIPS_VERSION : option Z;
  legacy_pkey : option (list byte);
  sizeof_we_Digest : Z;
  sizeof_wc_Sha256 : Z
}.

(** [!defined(HAVE_FIPS_VERSION) || HAVE_FIPS_VERSION >= 2] *)
Definition hash_free_compiled (cfg : BuildConfig) : bool :=
  match HAVE_FIPS_VERSION cfg with
  | None => true
  | Some v => 2 <=? v
  end.

(** ** The state-and-fault monad *)

Definition M (S A : Type) : Type := S -> option (A * S).

Definition pure {S A : Type} (a : A) : M S A := fun s => Some (a, s).

Definition bind {S A B : Type} (m : M S A) (k : A -> M S B) : M S B :=
  fun s => match m s with
           | Some (a, s') => k a s'
           | None => None
           end.

Notation "'let*' x ':=' c 'in' k" := (bind c (fun x => k))
  (at level 10, x name, c at level 100, k at level 200).

(** Value and final state of a run, when it does not fault. *)
Definition result {S A : Type} (r : option (A * S)) : option A :=
  fst <$> r.
Definition final_state {S A : Type} (r : option (A * S)) : option S :=
  snd <$> r.

(** ** Digest contexts *)

(** What EVP_MD_CTX_md_data returns: null, or the address of the
    context's private data block. *)
Inductive md_ptr : Type := NULL | MD_DATA.

(** A context as the adapter sees it: the contents of the private data
    block ([None] when the context has none) and the engine call log. *)
Record World (D : Type) : Type := {
  md_data : option D;
  calls : list EngineCall
}.
Arguments md_data {D} _.
Arguments calls {D} _.

Definition EVP_MD_CTX_md_data {D : Type} : M (World D) md_ptr :=
  fun w => Some (match md_data w with Some _ => MD_DATA | None => NULL end, w).

(** [*p] as an rvalue. *)
Definition load {D : Type} (p : md_ptr) : M (World D) D :=
  fun w => match p, md_data w with
           | MD_DATA, Some d => Some (d, w)
           | _, _ => None
           end.

(** [*p = d]. *)
Definition store {D : Type} (p : md_ptr) (d : D) : M (World D) unit :=
  fun w => match p, md_data w with
           | MD_DATA, Some _ =>
               Some (tt, {| md_data := Some d; calls := calls w |})
           | _, _ => None
           end.

Definition log_call {D : Type} (c : EngineCall) : M (World D) unit :=
  fun w => Some (tt, {| md_data := md_data w; calls := calls w ++ [c] |}).

(** The tail of the init/update/final functions:
    [if (ret != 0) ret = 0; else ret = 1; return ret;] *)
Definition status_to_result (rc : Z) : Z :=
  if int_ne rc 0 then 0 else 1.

(** ** OpenSSL: EVP_MD method descriptors *)

(** Object identifiers of OpenSSL's obj_mac.h, and EVP_PKEY_NONE. *)
Definition NID_sha256 : Z := 672.
Definition NID_sha384 : Z := 673.
Definition NID_sha512 : Z := 674.
Definition NID_sha3_224 : Z := 1096.
Definition NID_sha3_256 : Z := 1097.
Definition NID_sha3_384 : Z := 1098.
Definition NID_sha3_512 : Z := 1099.
Definition EVP_PKEY_NONE : Z := 0.
Definition EVP_MD_FLAG_PKEY_METHOD_SIGNATURE : Z := 4.

(** A method descriptor for contexts whose private data has type [D].
    The callbacks are the adapter functions themselves; an unbound
    callback is [None]. *)
Record EVP_MD (D : Type) : Type := {
  md_type : Z;
  md_pkey_type : Z;
  md_init : option (M (World D) Z);
  md_update : option (list byte -> Z -> M (World D) Z);
  md_final : option (M (World D) (Z * list byte));
  md_cleanup : option (M (World D) Z);
  md_result_size : Z;
  md_app_datasize : Z;
  md_flags : Z;
  md_required_pkey_type : list byte
}.
Arguments md_type {D} _.
Arguments md_pkey_type {D} _.
Arguments md_init {D} _.
Arguments md_update {D} _.
Arguments md_final {D} _.
Arguments md_cleanup {D} _.
Arguments md_result_size {D} _.
Arguments md_app_datasize {D} _.
Arguments md_flags {D} _.
Arguments md_required_pkey_type {D} _.

(** The registry: the descriptors that are allocated and not yet released,
    by address, and the global descriptor pointers of digest.c
    ([we_sha256_md], [we_sha384_md], ...), one per algorithm; [None] is a
    null pointer. *)
Record Registry (D : Type) : Type := {
  meths : gmap positive (EVP_MD D);
  we_md : wc_HashType -> option positive
}.
Arguments meths {D} _.
Arguments we_md {D} _.

(** What the environment answers to each constructor call of one
    registration: whether EVP_MD_meth_new has memory, and the value each
    EVP_MD_meth_set_* returns. *)
Record MethOutcome : Type := {
  meth_new_ok : bool;
  set_init_ret : Z;
  set_update_ret : Z;
  set_final_ret : Z;
  set_cleanup_ret : Z;
  set_result_size_ret : Z;
  set_app_datasize_ret : Z
}.

Section Methods.
Context {D : Type}.

Definition EVP_MD_meth_new (o : MethOutcome) (md_type pkey_type : Z)
  : M (Registry D) (option positive) :=
  fun r =>
    if meth_new_ok o then
      let p := fresh (dom (meths r)) in
      let md := {| md_type := md_type; md_pkey_type := pkey_type;
                   md_init := None; md_update := None; md_final := None;
                   md_cleanup := None; md_result_size := 0;
                   md_app_datasize := 0; md_flags := 0;
                   md_required_pkey_type := [] |} in
      Some (Some p, {| meths := <[p := md]> (meths r); we_md := we_md r |})
    else Some (None, r).

(** [*md] for a descriptor pointer; a null or released one is a fault. *)
Definition meth_load (md : option positive) : M (Registry D) (EVP_MD D) :=
  fun r => match md with
           | Some p => match meths r !! p with
                       | Some m => Some (m, r)
                       | None => None
                       end
           | None => None
           end.

Definition meth_store (md : option positive) (m : EVP_MD D)
  : M (Registry D) unit :=
  fun r => match md with
           | Some p => Some (tt, {| meths := <[p := m]> (meths r);
                                     we_md := we_md r |})
           | None => None
           end.

(** A setter binds its field when the environment lets it return 1 and
    leaves the descriptor as it was otherwise. *)
Definition meth_set (rv : Z) (md : option positive)
    (upd : EVP_MD D -> EVP_MD D) : M (Registry D) Z :=
  let* m := meth_load md in
  if int_eq rv 1 then
    let* _ := meth_store md (upd m) in
    pure 1
  else pure rv.

Definition EVP_MD_meth_set_init (o : MethOutcome) (md : option positive)
    (f : M (World D) Z) : M (Registry D) Z :=
  meth_set (set_init_ret o) md
    (fun m => {| md_type := md_type m; md_pkey_type := md_pkey_type m;
                 md_init := Some f; md_update := md_update m;
                 md_final := md_final m; md_cleanup := md_cleanup m;
                 md_result_size := md_result_size m;
                 md_app_datasize := md_app_datasize m;
                 md_flags := md_flags m;
                 md_required_pkey_type := md_required_pkey_type m |}).

Definition EVP_MD_meth_set_update (o : MethOutcome) (md : option positive)
    (f : list byte -> Z -> M (World D) Z) : M (Registry D) Z :=
  meth_set (set_update_ret o) md
    (fun m => {| md_type := md_type m; md_pkey_type := md_pkey_type m;
                 md_init := md_init m; md_update := Some f;
                 md_final := md_final m; md_cleanup := md_cleanup m;
                 md_result_size := md_result_size m;
                 md_app_datasize := md_app_datasize m;
                 md_flags := md_flags m;
                 md_required_pkey_type := md_required_pkey_type m |}).

Definition EVP_MD_meth_set_final (o : MethOutcome) (md : option positive)
    (f : M (World D) (Z * list byte)) : M (Registry D) Z :=
  meth_set (set_final_ret o) md
    (fun m => {| md_type := md_type m; md_pkey_type := md_pkey_type m;
                 md_init := md_init m; md_update := md_update m;
                 md_final := Some f; md_cleanup := md_cleanup m;
                 md_result_size := md_result_size m;
                 md_app_datasize := md_app_datasize m;
                 md_flags := md_flags m;
                 md_required_pkey_type := md_required_pkey_type m |}).

Definition EVP_MD_meth_set_cleanup (o : MethOutcome) (md : option positive)
    (f : M (World D) Z) : M (Registry D) Z :=
  meth_set (set_cleanup_ret o) md
    (fun m => {| md_type := md_type m; md_pkey_type := md_pkey_type m;
                 md_init := md_init m; md_update := md_update m;
                 md_final := md_final m; md_cleanup := Some f;
                 md_result_size := md_result_size m;
                 md_app_datasize := md_app_datasize m;
                 md_flags := md_flags m;
                 md_required_pkey_type := md_required_pkey_type m |}).

Definition EVP_MD_meth_set_result_size (o : MethOutcome)
    (md : option positive) (n : Z) : M (Registry D) Z :=
  meth_set (set_result_size_ret o) md
    (fun m => {| md_type := md_type m; md_pkey_type := md_pkey_type m;
                 md_init := md_init m; md_update := md_update m;
                 md_final := md_final m; md_cleanup := md_cleanup m;
                 md_result_size := n;
                 md_app_datasize := md_app_datasize m;
                 md_flags := md_flags m;
                 md_required_pkey_type := md_required_pkey_type m |}).

Definition EVP_MD_meth_set_app_datasize (o : MethOutcome)
    (md : option positive) (n : Z) : M (Registry D) Z :=
  meth_set (set_app_datasize_ret o) md
    (fun m => {| md_type := md_type m; md_pkey_type := md_pkey_type m;
                 md_init := md_init m; md_update := md_update m;
                 md_final := md_final m; md_cleanup := md_cleanup m;
                 md_result_size := md_result_size m;
                 md_app_datasize := n;
                 md_flags := md_flags m;
                 md_required_pkey_type := md_required_pkey_type m |}).

(** Releasing a descriptor removes it from the registry's live set. *)
Definition EVP_MD_meth_free (md : option positive) : M (Registry D) unit :=
  let* _ := meth_load md in
  fun r => match md with
           | Some p => Some (tt, {| meths := delete p (meths r);
                                     we_md := we_md r |})
           | None => None
           end.

(** The registry with the descriptor [m] at address [p]. *)
Definition put_meth (p : positive) (m : EVP_MD D) (r : Registry D)
  : Registry D :=
  {| meths := <[p := m]> (meths r); we_md := we_md r |}.

(** Reading and assigning a global descriptor pointer. *)
Definition get_we_md (alg : wc_HashType) : M (Registry D) (option positive) :=
  fun r => Some (we_md r alg, r).

Definition set_we_md (alg : wc_HashType) (p : option positive)
  : M (Registry D) unit :=
  fun r => Some (tt, {| meths := meths r; we_md := <[alg := p]> (we_md r) |}).

(** [if (ret == 1) { ret = step; }] *)
Definition if_ok (ret : Z) (step : M (Registry D) Z) : M (Registry D) Z :=
  if int_eq ret 1 then step else pure ret.

End Methods.

(** ** Generic path ([#ifdef WE_USE_HASH]) *)

Module Generic.
Section WithEngine.
Context {E : HashEngine}.

Record we_Digest : Type := {
  hash : wc_HashAlg;
  hashType : wc_HashType
}.

(** A context whose private data block holds the session [d], with the
    engine calls [l] behind it. *)
Definition ready (d : we_Digest) (l : list EngineCall) : World we_Digest :=
  {| md_data := Some d; calls := l |}.

(** The session [d] after the engine has turned its handle into [h]. *)
Definition with_hash (d : we_Digest) (h : wc_HashAlg) : we_Digest :=
  {| hash := h; hashType := hashType d |}.

(** [digest->hashType = t;] *)
Definition set_hashType (digest : md_ptr) (t : wc_HashType)
  : M (World we_Digest) unit :=
  let* d := load digest in
  store digest {| hash := hash d; hashType := t |}.

(** [digest->hashType] as an rvalue. *)
Definition get_hashType (digest : md_ptr) : M (World we_Digest) wc_HashType :=
  let* d := load digest in
  pure (hashType d).

(** A call [f(&digest->hash, t, ...)] of a generic engine entry point:
    the engine works on the [hash] member only. *)
Definition on_hash {A : Type} (digest : md_ptr) (c : EngineCall)
    (f : wc_HashAlg -> A * wc_HashAlg) : M (World we_Digest) A :=
  let* d := load digest in
  let* _ := log_call c in
  let '(a, h') := f (hash d) in
  let* _ := store digest {| hash := h'; hashType := hashType d |} in
  pure a.

Definition call_wc_HashInit (digest : md_ptr) (t : wc_HashType)
  : M (World we_Digest) Z :=
  on_hash digest (Call_wc_HashInit t) (fun h => wc_HashInit h t).

Definition call_wc_HashUpdate (digest : md_ptr) (t : wc_HashType)
    (data : list byte) (sz : Z) : M (World we_Digest) Z :=
  on_hash digest (Call_wc_HashUpdate t data sz)
          (fun h => wc_HashUpdate h t data sz).

Definition call_wc_HashFinal (digest : md_ptr) (t : wc_HashType)
  : M (World we_Digest) (Z * list byte) :=
  on_hash digest (Call_wc_HashFinal t)
          (fun h => let '(rc, h', out) := wc_HashFinal h t in ((rc, out), h')).

Definition call_wc_HashFree (digest : md_ptr) (t : wc_HashType)
  : M (World we_Digest) Z :=
  on_hash digest (Call_wc_HashFree t) (fun h => wc_HashFree h t).

(** The seven initializers differ in the literal tag only. *)
Definition we_hash_init (tag : wc_HashType) : M (World we_Digest) Z :=
  let* digest := EVP_MD_CTX_md_data in
  let* _ := set_hashType digest tag in
  let* t := get_hashType digest in
  let* rc := call_wc_HashInit digest t in
  pure (status_to_result rc).

Definition we_sha256_init := we_hash_init WC_HASH_TYPE_SHA256.
Definition we_sha384_init := we_hash_init WC_HASH_TYPE_SHA384.
Definition we_sha512_init := we_hash_init WC_HASH_TYPE_SHA512.
Definition we_sha3_224_init := we_hash_init WC_HASH_TYPE_SHA3_224.
Definition we_sha3_256_init := we_hash_init WC_HASH_TYPE_SHA3_256.
Definition we_sha3_384_init := we_hash_init WC_HASH_TYPE_SHA3_384.
Definition we_sha3_512_init := we_hash_init WC_HASH_TYPE_SHA3_512.

Definition we_digest_update (data : list byte) (len : Z)
  : M (World we_Digest) Z :=
  let* digest := EVP_MD_CTX_md_data in
  let* t := get_hashType digest in
  let* rc := call_wc_HashUpdate digest t data (word32 len) in
  pure (status_to_result rc).

(** The second component is what was stored through [md]. *)
Definition we_digest_final : M (World we_Digest) (Z * list byte) :=
  let* digest := EVP_MD_CTX_md_data in
  let* t := get_hashType digest in
  let* r := call_wc_HashFinal digest t in
  pure (status_to_result (fst r), snd r).

Definition we_digest_cleanup (cfg : BuildConfig) : M (World we_Digest) Z :=
  if hash_free_compiled cfg then
    let* digest := EVP_MD_CTX_md_data in
    match digest with
    | MD_DATA =>
        let* t := get_hashType digest in
        let* rc := call_wc_HashFree digest t in
        pure (status_to_result rc)
    | NULL => pure 1
    end
  else pure 1.

(** *** Method registration *)

(** The block compiled for WE_HAVE_EVP_PKEY with OpenSSL older than 1.1.0:
    [XMEMCPY(method->required_pkey_type, nids, cnt);
     method->flags |= EVP_MD_FLAG_PKEY_METHOD_SIGNATURE;] *)
Definition legacy_pkey_setup (method : option positive) (bs : list byte)
  : M (Registry we_Digest) unit :=
  let* m := meth_load method in
  meth_store method
    {| md_type := md_type m; md_pkey_type := md_pkey_type m;
       md_init := md_init m; md_update := md_update m;
       md_final := md_final m; md_cleanup := md_cleanup m;
       md_result_size := md_result_size m;
       md_app_datasize := md_app_datasize m;
       md_flags := Z.lor (md_flags m) EVP_MD_FLAG_PKEY_METHOD_SIGNATURE;
       md_required_pkey_type :=
         bs ++ drop (length bs) (md_required_pkey_type m) |}.

Definition we_init_digest_meth (cfg : BuildConfig) (o : MethOutcome)
    (method : option positive) : M (Registry we_Digest) Z :=
  let* ret := EVP_MD_meth_set_update o method we_digest_update in
  let* ret := if_ok ret (EVP_MD_meth_set_final o method we_digest_final) in
  let* ret := if_ok ret
                (EVP_MD_meth_set_cleanup o method (we_digest_cleanup cfg)) in
  let* ret := if_ok ret
                (EVP_MD_meth_set_app_datasize o method (sizeof_we_Digest cfg)) in
  let* _ := match legacy_pkey cfg with
            | Some bs =>
                if int_eq ret 1 then legacy_pkey_setup method bs else pure tt
            | None => pure tt
            end in
  pure ret.

(** The seven registration functions differ in the global they assign, the
    object identifier, the initializer and the size constant only. *)
Definition we_init_meth (cfg : BuildConfig) (o : MethOutcome)
    (alg : wc_HashType) (nid : Z) (init : M (World we_Digest) Z) (size : Z)
  : M (Registry we_Digest) Z :=
  let* p := EVP_MD_meth_new o nid EVP_PKEY_NONE in
  let* _ := set_we_md alg p in
  let ret := if p is Some _ then 1 else 0 in
  let* ret := if_ok ret (let* md := get_we_md alg in
                         EVP_MD_meth_set_init o md init) in
  let* ret := if_ok ret (let* md := get_we_md alg in
                         EVP_MD_meth_set_result_size o md size) in
  let* ret := if_ok ret (let* md := get_we_md alg in
                         we_init_digest_meth cfg o md) in
  let* md := get_we_md alg in
  let* _ := if int_ne ret 1 && bool_decide (md <> None)
            then EVP_MD_meth_free md else pure tt in
  pure ret.

Definition we_init_sha256_meth (cfg : BuildConfig) (o : MethOutcome) :=
  we_init_meth cfg o WC_HASH_TYPE_SHA256 NID_sha256
               we_sha256_init WC_SHA256_DIGEST_SIZE.
Definition we_init_sha384_meth (cfg : BuildConfig) (o : MethOutcome) :=
  we_init_meth cfg o WC_HASH_TYPE_SHA384 NID_sha384
               we_sha384_init WC_SHA384_DIGEST_SIZE.
Definition we_init_sha512_meth (cfg : BuildConfig) (o : MethOutcome) :=
  we_init_meth cfg o WC_HASH_TYPE_SHA512 NID_sha512
               we_sha512_init WC_SHA512_DIGEST_SIZE.
Definition we_init_sha3_224_meth (cfg : BuildConfig) (o : MethOutcome) :=
  we_init_meth cfg o WC_HASH_TYPE_SHA3_224 NID_sha3_224
               we_sha3_224_init WC_SHA3_224_DIGEST_SIZE.
Definition we_init_sha3_256_meth (cfg : BuildConfig) (o : MethOutcome) :=
  we_init_meth cfg o WC_HASH_TYPE_SHA3_256 NID_sha3_256
               we_sha3_256_init WC_SHA3_256_DIGEST_SIZE.
Definition we_init_sha3_384_meth (cfg : BuildConfig) (o : MethOutcome) :=
  we_init_meth cfg o WC_HASH_TYPE_SHA3_384 NID_sha3_384
               we_sha3_384_init WC_SHA3_384_DIGEST_SIZE.
Definition we_init_sha3_512_meth (cfg : BuildConfig) (o : MethOutcome) :=
  we_init_meth cfg o WC_HASH_TYPE_SHA3_512 NID_sha3_512
               we_sha3_512_init WC_SHA3_512_DIGEST_SIZE.

(** The registration function, the initializer and the size constant of
    each algorithm, as digest.c pairs them. *)
Definition we_init_meth_of (alg : wc_HashType)
  : BuildConfig -> MethOutcome -> M (Registry we_Digest) Z :=
  match alg with
  | WC_HASH_TYPE_SHA256 => we_init_sha256_meth
  | WC_HASH_TYPE_SHA384 => we_init_sha384_meth
  | WC_HASH_TYPE_SHA512 => we_init_sha512_meth
  | WC_HASH_TYPE_SHA3_224 => we_init_sha3_224_meth
  | WC_HASH_TYPE_SHA3_256 => we_init_sha3_256_meth
  | WC_HASH_TYPE_SHA3_384 => we_init_sha3_384_meth
  | WC_HASH_TYPE_SHA3_512 => we_init_sha3_512_meth
  end.

Definition we_init_of (alg : wc_HashType) : M (World we_Digest) Z :=
  match alg with
  | WC_HASH_TYPE_SHA256 => we_sha256_init
  | WC_HASH_TYPE_SHA384 => we_sha384_init
  | WC_HASH_TYPE_SHA512 => we_sha512_init
  | WC_HASH_TYPE_SHA3_224 => we_sha3_224_init
  | WC_HASH_TYPE_SHA3_256 => we_sha3_256_init
  | WC_HASH_TYPE_SHA3_384 => we_sha3_384_init
  | WC_HASH_TYPE_SHA3_512 => we_sha3_512_init
  end.

(** A fully bound descriptor of the generic path. *)
Definition fully_bound (cfg : BuildConfig) (nid : Z)
    (init : M (World we_Digest) Z) (size : Z) (md : EVP_MD we_Digest) : Prop :=
  md_type md = nid /\
  md_init md = Some init /\
  md_result_size md = size /\
  md_update md = Some we_digest_update /\
  md_final md = Some we_digest_final /\
  md_cleanup md = Some (we_digest_cleanup cfg) /\
  md_app_datasize md = sizeof_we_Digest cfg.

End WithEngine.
End Generic.

(** ** Fixed-function SHA-256 path
    ([#if defined(WE_HAVE_SHA256) && defined(WE_SHA256_DIRECT)]) *)

Module Direct.
Section WithEngine.
Context {E : HashEngine}.

(** A call [f(EVP_MD_CTX_md_data(ctx), ...)] of a fixed-function entry
    point: the pointer, cast to the SHA-256 handle type, is handed to the engine as it is, so a null one is answered by the engine
    ([on_null]) and not dereferenced by the adapter. *)
Definition on_sha256 {A : Type} (c : EngineCall)
    (f : wc_Sha256 -> A * wc_Sha256) (on_null : A) : M (World wc_Sha256) A :=
  let* p := EVP_MD_CTX_md_data in
  let* _ := log_call c in
  match p with
  | NULL => pure on_null
  | MD_DATA =>
      let* s := load p in
      let '(a, s') := f s in
      let* _ := store p s' in
      pure a
  end.

Definition we_sha256_init : M (World wc_Sha256) Z :=
  let* rc := on_sha256 Call_wc_InitSha256 wc_InitSha256 wc_Sha256_null in
  pure (status_to_result rc).

Definition we_sha256_update (data : list byte) (len : Z)
  : M (World wc_Sha256) Z :=
  let* rc := on_sha256 (Call_wc_Sha256Update data (word32 len))
                       (fun s => wc_Sha256Update s data (word32 len))
                       wc_Sha256_null in
  pure (status_to_result rc).

Definition we_sha256_final : M (World wc_Sha256) (Z * list byte) :=
  let* r := on_sha256 Call_wc_Sha256Final
                      (fun s => let '(rc, s', out) := wc_Sha256Final s in
                                ((rc, out), s'))
                      (wc_Sha256_null, []) in
  pure (status_to_result (fst r), snd r).

Definition we_sha256_cleanup : M (World wc_Sha256) Z :=
  let* _ := on_sha256 Call_wc_Sha256Free
                      (fun s => (tt, wc_Sha256Free s)) tt in
  pure 1.

(** *** Method registration *)

Definition we_init_sha256_meth (cfg : BuildConfig) (o : MethOutcome)
  : M (Registry wc_Sha256) Z :=
  let alg := WC_HASH_TYPE_SHA256 in
  let* p := EVP_MD_meth_new o NID_sha256 EVP_PKEY_NONE in
  let* _ := set_we_md alg p in
  let ret := if p is Some _ then 1 else 0 in
  let* ret := if_ok ret (let* md := get_we_md alg in
                         EVP_MD_meth_set_init o md we_sha256_init) in
  let* ret := if_ok ret (let* md := get_we_md alg in
                         EVP_MD_meth_set_update o md we_sha256_update) in
  let* ret := if_ok ret (let* md := get_we_md alg in
                         EVP_MD_meth_set_final o md we_sha256_final) in
  let* ret := if_ok ret (let* md := get_we_md alg in
                         EVP_MD_meth_set_cleanup o md we_sha256_cleanup) in
  let* ret := if_ok ret (let* md := get_we_md alg in
                         EVP_MD_meth_set_result_size o md
                                                     WC_SHA256_DIGEST_SIZE) in
  let* ret := if_ok ret (let* md := get_we_md alg in
                         EVP_MD_meth_set_app_datasize o md
                                                      (sizeof_wc_Sha256 cfg)) in
  let* md := get_we_md alg in
  let* _ := if int_ne ret 1 && bool_decide (md <> None)
            then EVP_MD_meth_free md else pure tt in
  pure ret.

End WithEngine.
End Direct.

(** ** Sessions *)

(** A digest computation as a caller drives it through a descriptor's
    callbacks: init, one update per chunk (buffer and length), final.  The
    value is the whole transcript: the result of init, of each update, and
    of final with the bytes stored through the output pointer. *)
Section Sessions.
Context {D : Type}.
Variable init : M (World D) Z.
Variable update : list byte -> Z -> M (World D) Z.
Variable final : M (World D) (Z * list byte).

Fixpoint updates (chunks : list (list byte * Z)) : M (World D) (list Z) :=
  match chunks with
  | [] => pure []
  | (data, len) :: rest =>
      let* r := update data len in
      let* rs := updates rest in
      pure (r :: rs)
  end.

Definition session (chunks : list (list byte * Z))
  : M (World D) (Z * list Z * (Z * list byte)) :=
  let* r0 := init in
  let* rs := updates chunks in
  let* rf := final in
  pure (r0, rs, rf).

End Sessions.

(** The result of final and the digest bytes in a transcript. *)
Definition digest_of (t : option (Z * list Z * (Z * list byte)))
  : option (Z * list byte) :=
  snd <$> t.

(** The bytes the engine is handed by the updates of a session: of each
    chunk, as many leading bytes as the 32-bit size says. *)
Fixpoint absorbed (chunks : list (list byte * Z)) : list byte :=
  match chunks with
  | [] => []
  | (data, len) :: rest => take (Z.to_nat (word32 len)) data ++ absorbed rest
  end.

(** The two ways of feeding a buffer of [length data] bytes: in one
    update, or in two updates split after [n] bytes. *)
Definition whole (data : list byte) : list (list byte * Z) :=
  [(data, Z.of_nat (length data))].

Definition split_at (n : nat) (data : list byte) : list (list byte * Z) :=
  [(take n data, Z.of_nat n);
   (drop n data, Z.of_nat (length data) - Z.of_nat n)].

(** The operations a caller may apply to a generic session after init. *)
Inductive SessionOp : Type :=
| OpUpdate (data : list byte) (len : Z)
| OpFinal
| OpCleanup.

Section SessionOps.
Context {E : HashEngine}.

Definition run_op (cfg : BuildConfig) (op : SessionOp)
  : M (World Generic.we_Digest) unit :=
  match op with
  | OpUpdate data len => let* _ := Generic.we_digest_update data len in pure tt
  | OpFinal => let* _ := Generic.we_digest_final in pure tt
  | OpCleanup => let* _ := Generic.we_digest_cleanup cfg in pure tt
  end.

Fixpoint run_ops (cfg : BuildConfig) (ops : list SessionOp)
  : M (World Generic.we_Digest) unit :=
  match ops with
  | [] => pure tt
  | op :: rest => let* _ := run_op cfg op in run_ops cfg rest
  end.

End SessionOps.

(** ** Contracts of the engine *)

(** A successful [wc_HashFinal] stores as many bytes as the engine's size
    table says. *)
Definition final_writes_digest_size (E : HashEngine) : Prop :=
  forall (h : wc_HashAlg) (t : wc_HashType) (h' : wc_HashAlg) (out : list byte),
    wc_HashFinal h t = (0, h', out) ->
    Z.of_nat (length out) = wc_HashGetDigestSize t.

(** The generic entry points, at WC_HASH_TYPE_SHA256, run the
    fixed-function ones on the SHA-256 member of the handle
    ([sha256_of]). *)
Class Sha256Coherent (E : HashEngine) : Type := {
  sha256_of : wc_HashAlg -> wc_Sha256;
  coherent_init : forall h : wc_HashAlg,
    wc_InitSha256 (sha256_of h) =
    (let '(rc, h') := wc_HashInit h WC_HASH_TYPE_SHA256 in (rc, sha256_of h'));
  coherent_update : forall (h : wc_HashAlg) (data : list byte) (sz : Z),
    wc_Sha256Update (sha256_of h) data sz =
    (let '(rc, h') := wc_HashUpdate h WC_HASH_TYPE_SHA256 data sz in
     (rc, sha256_of h'));
  coherent_final : forall h : wc_HashAlg,
    wc_Sha256Final (sha256_of h) =
    (let '(rc, h', out) := wc_HashFinal h WC_HASH_TYPE_SHA256 in
     (rc, sha256_of h', out))
}.

(** The fixed-function context that holds the SHA-256 member of the
    generic session's handle. *)
Definition direct_view {E : HashEngine} {C : Sha256Coherent E}
    (d : Generic.we_Digest) (l : list EngineCall) : World wc_Sha256 :=
  {| md_data := Some (sha256_of (Generic.hash d)); calls := l |}.

(** ** A reference engine *)

(** The handle is the message absorbed so far: init empties it, update
    appends the first [sz] bytes of the buffer, final yields
    [digest_fn t] of the message.  [inject] makes an entry point fail: it
    gives the status of each call, and a call with a nonzero status leaves
    the handle alone. *)
Module Reference.
Section Model.
Variable digest_fn : wc_HashType -> list byte -> list byte.
Variable inject : EngineCall -> Z.

Definition guarded {A : Type} (c : EngineCall) (ok : A) (ko : A) : Z * A :=
  if inject c =? 0 then (0, ok) else (inject c, ko).

Definition engine : HashEngine := {|
  wc_Sha256 := list byte;
  wc_HashAlg := list byte;
  wc_InitSha256 := fun s => guarded Call_wc_InitSha256 [] s;
  wc_Sha256Update := fun s data sz =>
    guarded (Call_wc_Sha256Update data sz) (s ++ take (Z.to_nat sz) data) s;
  wc_Sha256Final := fun s =>
    if inject Call_wc_Sha256Final =? 0
    then (0, [], digest_fn WC_HASH_TYPE_SHA256 s)
    else (inject Call_wc_Sha256Final, s, []);
  wc_Sha256Free := fun _ => [];
  wc_Sha256_null := BAD_FUNC_ARG;
  wc_HashInit := fun h t => guarded (Call_wc_HashInit t) [] h;
  wc_HashUpdate := fun h t data sz =>
    guarded (Call_wc_HashUpdate t data sz) (h ++ take (Z.to_nat sz) data) h;
  wc_HashFinal := fun h t =>
    if inject (Call_wc_HashFinal t) =? 0
    then (0, [], digest_fn t h)
    else (inject (Call_wc_HashFinal t), h, []);
  wc_HashFree := fun h t => guarded (Call_wc_HashFree t) [] h
|}.

End Model.

(** No injected failure. *)
Definition no_failure : EngineCall -> Z := fun _ => 0.

(** Only the release routine fails, with the given status. *)
Definition failing_free (status : Z) : EngineCall -> Z :=
  fun c => match c with
           | Call_wc_HashFree _ => status
           | _ => 0
           end.

(** Only wc_HashInit fails, with the given status. *)
Definition failing_init (status : Z) : EngineCall -> Z :=
  fun c => match c with
           | Call_wc_HashInit _ => status
           | _ => 0
           end.

(** A stand-in digest function of the right output size. *)
Definition zero_digest (t : wc_HashType) (msg : list byte) : list byte :=
  replicate (Z.to_nat (wc_HashGetDigestSize t)) x00.

(** A digest function that tells messages apart: the message itself. *)
Definition identity_digest (t : wc_HashType) (msg : list byte) : list byte :=
  msg.

End Reference.

(** ** Concrete configurations and inputs *)

(** A build without HAVE_FIPS_VERSION, against OpenSSL 1.1.0 or later.
    The two sizes are those of one 64-bit platform; nothing below depends
    on their values. *)
Definition default_build : BuildConfig :=
  {| HAVE_FIPS_VERSION := None; legacy_pkey := None;
     sizeof_we_Digest := 232; sizeof_wc_Sha256 := 120 |}.

(** A build with HAVE_FIPS_VERSION defined as 1. *)
Definition fips_v1_build : BuildConfig :=
  {| HAVE_FIPS_VERSION := Some 1; legacy_pkey := None;
     sizeof_we_Digest := 232; sizeof_wc_Sha256 := 120 |}.

(** Every constructor call succeeds. *)
Definition all_ok : MethOutcome :=
  {| meth_new_ok := true; set_init_ret := 1; set_update_ret := 1;
     set_final_ret := 1; set_cleanup_ret := 1; set_result_size_ret := 1;
     set_app_datasize_ret := 1 |}.

(** The descriptor is allocated and EVP_MD_meth_set_init then fails. *)
Definition set_init_fails : MethOutcome :=
  {| meth_new_ok := true; set_init_ret := 0; set_update_ret := 1;
     set_final_ret := 1; set_cleanup_ret := 1; set_result_size_ret := 1;
     set_app_datasize_ret := 1 |}.

Definition empty_registry {D : Type} : Registry D :=
  {| meths := ∅; we_md := fun _ => None |}.

(** The reference engine without failures, and one whose release routine
    reports BAD_FUNC_ARG. *)
Definition sample_engine : HashEngine :=
  Reference.engine Reference.identity_digest Reference.no_failure.

Definition free_fails_engine : HashEngine :=
  Reference.engine Reference.identity_digest
                   (Reference.failing_free BAD_FUNC_ARG).

(** A SHA-256 session over a reference engine, with nothing absorbed. *)
Definition sha256_session (inject : EngineCall -> Z)
  : @Generic.we_Digest (Reference.engine Reference.identity_digest inject) :=
  @Generic.Build_we_Digest
    (Reference.engine Reference.identity_digest inject)
    [] WC_HASH_TYPE_SHA256.

(** The reference engine without failures is coherent: both families of
    entry points work on the same absorbed message. *)
Definition sample_coherent : Sha256Coherent sample_engine :=
  {| sha256_of := fun h : @wc_HashAlg sample_engine => (h : @wc_Sha256 sample_engine);
     coherent_init := fun _ => eq_refl;
     coherent_update := fun _ _ _ => eq_refl;
     coherent_final := fun _ => eq_refl |}.

(** The reference engine whose digests have the size of the table. *)
Definition zero_engine : HashEngine :=
  Reference.engine Reference.zero_digest Reference.no_failure.

(** A buffer of 2^32 zero bytes. *)
Definition four_gib : list byte := replicate (Z.to_nat (2 ^ 32)) x00.

(** ** Notions for the properties of whole runs *)

(** [if (ret == 1) ret = rv;] as a function of the two values. *)
Definition after (ret rv : Z) : Z := if int_eq ret 1 then rv else ret.

(** The first value other than 1 in a list of setter results, and 1 when
    there is none. *)
Fixpoint first_non_one (rets : list Z) : Z :=
  match rets with
  | [] => 1
  | r :: rest => if int_eq r 1 then first_non_one rest else r
  end.

(** The setter results in the order in which a generic registration and
    the fixed-function registration call the setters. *)
Definition generic_steps (o : MethOutcome) : list Z :=
  [set_init_ret o; set_result_size_ret o; set_update_ret o;
   set_final_ret o; set_cleanup_ret o; set_app_datasize_ret o].

Definition direct_steps (o : MethOutcome) : list Z :=
  [set_init_ret o; set_update_ret o; set_final_ret o;
   set_cleanup_ret o; set_result_size_ret o; set_app_datasize_ret o].

(** The engine calls one generic operation makes on a session tagged
    [t]. *)
Definition op_calls (cfg : BuildConfig) (t : wc_HashType) (op : SessionOp)
  : list EngineCall :=
  match op with
  | OpUpdate data len => [Call_wc_HashUpdate t data (word32 len)]
  | OpFinal => [Call_wc_HashFinal t]
  | OpCleanup => if hash_free_compiled cfg then [Call_wc_HashFree t] else []
  end.

(** The engine calls of the updates of a fixed-function session. *)
Definition direct_update_calls (chunks : list (list byte * Z))
  : list EngineCall :=
  map (fun c => Call_wc_Sha256Update (fst c) (word32 (snd c))) chunks.

(** Buffers fed whole, each with its own length. *)
Definition true_lengths (bufs : list (list byte)) : list (list byte * Z) :=
  map (fun b => (b, Z.of_nat (length b))) bufs.

(** A fixed-function context whose private data block holds the handle
    [s]. *)
Definition direct_ready {E : HashEngine} (s : wc_Sha256)
    (l : list EngineCall) : World wc_Sha256 :=
  {| md_data := Some s; calls := l |}.

(** A run that does not fault returned 0 or 1. *)
Definition boolean_result {S : Type} (r : option (Z * S)) : Prop :=
  match r with
  | Some (v, _) => v = 0 \/ v = 1
  | None => True
  end.

(** Two registrations, one after the other. *)
Definition register_two {E : HashEngine} (cfg : BuildConfig)
    (alg1 alg2 : wc_HashType) (o1 o2 : MethOutcome)
  : M (Registry Generic.we_Digest) (Z * Z) :=
  let* a := Generic.we_init_meth_of alg1 cfg o1 in
  let* b := Generic.we_init_meth_of alg2 cfg o2 in
  pure (a, b).

(** * Verification *)

(** ** Status mapping *)

Lemma status_to_result_1 (rc : Z) : status_to_result rc = 1 <-> rc = 0.
Proof.
  unfold status_to_result, int_ne.
  destruct (Z.eqb_spec rc 0); simpl; split; intros; try lia; congruence.
Qed.

Lemma status_to_result_0 (rc : Z) : status_to_result rc = 0 <-> rc <> 0.
Proof.
  unfold status_to_result, int_ne.
  destruct (Z.eqb_spec rc 0); simpl; split; intros; try lia; congruence.
Qed.

Lemma status_to_result_bool (rc : Z) :
  status_to_result rc = 0 \/ status_to_result rc = 1.
Proof. unfold status_to_result. destruct (int_ne rc 0); auto. Qed.

(** ** What each generic operation does to a session that has data *)

Section GenericSteps.
Context {E : HashEngine}.
Import Generic.

Lemma we_hash_init_step (tag : wc_HashType) (d : we_Digest)
    (l : list EngineCall) :
  we_hash_init tag (ready d l) =
  Some (status_to_result (fst (wc_HashInit (hash d) tag)),
        ready {| hash := snd (wc_HashInit (hash d) tag); hashType := tag |}
              (l ++ [Call_wc_HashInit tag])).
Proof.
  unfold we_hash_init, call_wc_HashInit, on_hash, set_hashType, get_hashType,
    ready, bind; simpl.
  destruct (wc_HashInit (hash d) tag) as [rc h']; reflexivity.
Qed.

Lemma we_init_of_step (alg : wc_HashType) (d : we_Digest)
    (l : list EngineCall) :
  we_init_of alg (ready d l) =
  Some (status_to_result (fst (wc_HashInit (hash d) alg)),
        ready {| hash := snd (wc_HashInit (hash d) alg); hashType := alg |}
              (l ++ [Call_wc_HashInit alg])).
Proof. destruct alg; apply we_hash_init_step. Qed.

Lemma we_digest_update_step (data : list byte) (len : Z) (d : we_Digest)
    (l : list EngineCall) :
  we_digest_update data len (ready d l) =
  Some (status_to_result
          (fst (wc_HashUpdate (hash d) (hashType d) data (word32 len))),
        ready (with_hash d
                 (snd (wc_HashUpdate (hash d) (hashType d) data (word32 len))))
              (l ++ [Call_wc_HashUpdate (hashType d) data (word32 len)])).
Proof.
  unfold we_digest_update, call_wc_HashUpdate, on_hash, get_hashType,
    ready, with_hash, bind; simpl.
  destruct (wc_HashUpdate _ _ _ _) as [rc h']; reflexivity.
Qed.

Lemma we_digest_final_step (d : we_Digest) (l : list EngineCall) :
  we_digest_final (ready d l) =
  Some ((status_to_result (fst (fst (wc_HashFinal (hash d) (hashType d)))),
         snd (wc_HashFinal (hash d) (hashType d))),
        ready (with_hash d (snd (fst (wc_HashFinal (hash d) (hashType d)))))
              (l ++ [Call_wc_HashFinal (hashType d)])).
Proof.
  unfold we_digest_final, call_wc_HashFinal, on_hash, get_hashType,
    ready, with_hash, bind; simpl.
  destruct (wc_HashFinal _ _) as [[rc h'] out]; reflexivity.
Qed.

Lemma we_digest_cleanup_step (cfg : BuildConfig) (d : we_Digest)
    (l : list EngineCall) :
  we_digest_cleanup cfg (ready d l) =
  if hash_free_compiled cfg then
    Some (status_to_result (fst (wc_HashFree (hash d) (hashType d))),
          ready (with_hash d (snd (wc_HashFree (hash d) (hashType d))))
                (l ++ [Call_wc_HashFree (hashType d)]))
  else Some (1, ready d l).
Proof.
  unfold we_digest_cleanup. destruct (hash_free_compiled cfg); [|reflexivity].
  unfold call_wc_HashFree, on_hash, get_hashType, ready, with_hash, bind; simpl.
  destruct (wc_HashFree _ _) as [rc h']; reflexivity.
Qed.

Lemma we_digest_cleanup_null (cfg : BuildConfig) (l : list EngineCall) :
  we_digest_cleanup cfg {| md_data := None; calls := l |} =
  Some (1, {| md_data := None; calls := l |}).
Proof.
  unfold we_digest_cleanup.
  destruct (hash_free_compiled cfg); reflexivity.
Qed.

End GenericSteps.

(** ** Dispatch, status propagation and the hash-type tag *)

Section GenericClaims.
Context {E : HashEngine}.
Import Generic.

(** C1 (as amended).  On a session that has data, update and final call
    exactly wc_HashUpdate and wc_HashFinal with the stored hashType, and
    their result is the engine's status mapped to 1 or 0.  Cleanup calls
    exactly wc_HashFree with the stored hashType where that call is
    compiled in (HAVE_FIPS_VERSION undefined or at least 2), and calls
    nothing and returns 1 in the other builds.  The tag is used for
    nothing but the argument of the engine call. *)
Theorem dispatch_on_stored_hashType (cfg : BuildConfig) (d : we_Digest)
    (l : list EngineCall) (data : list byte) (len : Z) :
  we_digest_update data len (ready d l) =
    Some (status_to_result
            (fst (wc_HashUpdate (hash d) (hashType d) data (word32 len))),
          ready (with_hash d
                   (snd (wc_HashUpdate (hash d) (hashType d) data (word32 len))))
                (l ++ [Call_wc_HashUpdate (hashType d) data (word32 len)]))
  /\ we_digest_final (ready d l) =
    Some ((status_to_result (fst (fst (wc_HashFinal (hash d) (hashType d)))),
           snd (wc_HashFinal (hash d) (hashType d))),
          ready (with_hash d (snd (fst (wc_HashFinal (hash d) (hashType d)))))
                (l ++ [Call_wc_HashFinal (hashType d)]))
  /\ we_digest_cleanup cfg (ready d l) =
    (if hash_free_compiled cfg then
       Some (status_to_result (fst (wc_HashFree (hash d) (hashType d))),
             ready (with_hash d (snd (wc_HashFree (hash d) (hashType d))))
                   (l ++ [Call_wc_HashFree (hashType d)]))
     else Some (1, ready d l)).
Proof.
  split; [apply we_digest_update_step|].
  split; [apply we_digest_final_step|apply we_digest_cleanup_step].
Qed.

(** C5.  Init, update and final each make one engine call, return 1
    exactly when that call's status is 0 and 0 exactly when it is not;
    nothing is retried. *)
Theorem engine_status_propagates (alg : wc_HashType) (d : we_Digest)
    (l : list EngineCall) (data : list byte) (len : Z) :
  (exists (r : Z) (w' : World we_Digest),
     we_init_of alg (ready d l) = Some (r, w') /\
     (r = 1 <-> fst (wc_HashInit (hash d) alg) = 0) /\
     (r = 0 <-> fst (wc_HashInit (hash d) alg) <> 0) /\
     calls w' = l ++ [Call_wc_HashInit alg])
  /\ (exists (r : Z) (w' : World we_Digest),
     we_digest_update data len (ready d l) = Some (r, w') /\
     (r = 1 <->
      fst (wc_HashUpdate (hash d) (hashType d) data (word32 len)) = 0) /\
     (r = 0 <->
      fst (wc_HashUpdate (hash d) (hashType d) data (word32 len)) <> 0) /\
     calls w' = l ++ [Call_wc_HashUpdate (hashType d) data (word32 len)])
  /\ (exists (r : Z) (out : list byte) (w' : World we_Digest),
     we_digest_final (ready d l) = Some ((r, out), w') /\
     (r = 1 <-> fst (fst (wc_HashFinal (hash d) (hashType d))) = 0) /\
     (r = 0 <-> fst (fst (wc_HashFinal (hash d) (hashType d))) <> 0) /\
     calls w' = l ++ [Call_wc_HashFinal (hashType d)]).
Proof.
  repeat split.
  - eexists _, _. split; [apply we_init_of_step|].
    split; [apply status_to_result_1|].
    split; [apply status_to_result_0|reflexivity].
  - eexists _, _. split; [apply we_digest_update_step|].
    split; [apply status_to_result_1|].
    split; [apply status_to_result_0|reflexivity].
  - eexists _, _, _. split; [apply we_digest_final_step|].
    split; [apply status_to_result_1|].
    split; [apply status_to_result_0|reflexivity].
Qed.

(** C9.  Cleanup of a context without private data returns 1 and calls no
    engine routine, in every build. *)
Theorem cleanup_null_is_noop (cfg : BuildConfig) (l : list EngineCall) :
  we_digest_cleanup cfg {| md_data := None; calls := l |} =
  Some (1, {| md_data := None; calls := l |}).
Proof. apply we_digest_cleanup_null. Qed.

(** C10.  Every generic initializer stores its tag before it calls
    wc_HashInit: the call receives the tag whatever the field held before,
    and the session carries the tag afterwards whether init returns 1 or
    0. *)
Theorem init_binds_tag_before_engine (alg : wc_HashType) (d : we_Digest)
    (l : list EngineCall) :
  exists (r : Z) (d' : we_Digest),
    we_init_of alg (ready d l) =
      Some (r, ready d' (l ++ [Call_wc_HashInit alg])) /\
    hashType d' = alg /\
    (r = 0 <-> fst (wc_HashInit (hash d) alg) <> 0) /\
    (r = 0 \/ r = 1).
Proof.
  eexists _, _. split; [apply we_init_of_step|].
  split; [reflexivity|].
  split; [apply status_to_result_0|apply status_to_result_bool].
Qed.

(** One operation keeps the session in place and its tag as it was. *)
Lemma run_op_keeps_hashType (cfg : BuildConfig) (op : SessionOp)
    (d : we_Digest) (l : list EngineCall) :
  exists (d' : we_Digest) (l' : list EngineCall),
    run_op cfg op (ready d l) = Some (tt, ready d' l') /\
    hashType d' = hashType d.
Proof.
  destruct op as [data len| |]; unfold run_op, bind.
  - rewrite we_digest_update_step. eexists _, _; split; reflexivity.
  - rewrite we_digest_final_step. eexists _, _; split; reflexivity.
  - rewrite we_digest_cleanup_step.
    destruct (hash_free_compiled cfg); eexists _, _; split; reflexivity.
Qed.

Lemma run_ops_keeps_hashType (cfg : BuildConfig) (ops : list SessionOp) :
  forall (d : we_Digest) (l : list EngineCall),
  exists (d' : we_Digest) (l' : list EngineCall),
    run_ops cfg ops (ready d l) = Some (tt, ready d' l') /\
    hashType d' = hashType d.
Proof.
  induction ops as [|op ops IH]; intros d l.
  - exists d, l. split; reflexivity.
  - destruct (run_op_keeps_hashType cfg op d l) as (d1 & l1 & Hop & Ht1).
    destruct (IH d1 l1) as (d2 & l2 & Hops & Ht2).
    exists d2, l2. split; [|congruence].
    simpl. unfold bind. rewrite Hop. exact Hops.
Qed.

(** C8.  After an initializer has set the tag, any sequence of update,
    final and cleanup calls runs to the end and leaves hashType at the
    value init gave it. *)
Theorem hashType_is_write_once (cfg : BuildConfig) (alg : wc_HashType)
    (ops : list SessionOp) (d : we_Digest) (l : list EngineCall) :
  exists (r : Z) (d1 d2 : we_Digest) (l1 l2 : list EngineCall),
    we_init_of alg (ready d l) = Some (r, ready d1 l1) /\
    hashType d1 = alg /\
    run_ops cfg ops (ready d1 l1) = Some (tt, ready d2 l2) /\
    hashType d2 = alg.
Proof.
  rewrite we_init_of_step.
  edestruct (run_ops_keeps_hashType cfg ops) as (d2 & l2 & Hops & Ht).
  eexists _, _, d2, _, l2.
  split; [reflexivity|]. split; [reflexivity|].
  split; [exact Hops|exact Ht].
Qed.

End GenericClaims.

(** C10 on an engine whose wc_HashInit reports BAD_FUNC_ARG: a session
    tagged SHA3-512 is handed to the SHA-256 initializer, which returns 0
    and leaves the session tagged SHA-256. *)
Example failed_init_rebinds_tag :
  @Generic.we_sha256_init
    (Reference.engine Reference.identity_digest
                      (Reference.failing_init BAD_FUNC_ARG))
    (Generic.ready
       (@Generic.Build_we_Digest
          (Reference.engine Reference.identity_digest
                            (Reference.failing_init BAD_FUNC_ARG))
          [x61] WC_HASH_TYPE_SHA3_512) [])
  = Some (0,
          Generic.ready
            (@Generic.Build_we_Digest
               (Reference.engine Reference.identity_digest
                                 (Reference.failing_init BAD_FUNC_ARG))
               [x61] WC_HASH_TYPE_SHA256)
            [Call_wc_HashInit WC_HASH_TYPE_SHA256]).
Proof. reflexivity. Qed.

(** ** Cleanup and release errors *)

Section CleanupClaims.
Context {E : HashEngine}.
Import Generic.

Lemma direct_cleanup_returns_1 (ws : World wc_Sha256) :
  result (Direct.we_sha256_cleanup ws) = Some 1.
Proof.
  destruct ws as [[s|] l]; reflexivity.
Qed.

(** C4 (as amended).  The fixed-function cleanup returns 1 on every
    context.  The generic cleanup never faults; it returns 1 when the
    context has no private data, when wc_HashFree is not compiled in, and
    when wc_HashFree returns 0, and it returns 0 when wc_HashFree returns
    a nonzero status. *)
Theorem cleanup_result (cfg : BuildConfig) (w : World we_Digest)
    (ws : World wc_Sha256) :
  result (we_digest_cleanup cfg w) =
    Some (match md_data w with
          | Some d =>
              if hash_free_compiled cfg
              then status_to_result (fst (wc_HashFree (hash d) (hashType d)))
              else 1
          | None => 1
          end)
  /\ result (Direct.we_sha256_cleanup ws) = Some 1.
Proof.
  split; [|apply direct_cleanup_returns_1].
  destruct w as [[d|] l].
  - change {| md_data := Some d; calls := l |} with (ready d l).
    rewrite we_digest_cleanup_step.
    destruct (hash_free_compiled cfg); reflexivity.
  - rewrite we_digest_cleanup_null. reflexivity.
Qed.

End CleanupClaims.

(** C4, counterexample.  In a build without HAVE_FIPS_VERSION, on an
    engine whose wc_HashFree reports BAD_FUNC_ARG, the generic cleanup of
    a SHA-256 session returns 0. *)
Lemma cleanup_surfaces_release_failure :
  result (@Generic.we_digest_cleanup free_fails_engine default_build
            (Generic.ready
               (sha256_session (Reference.failing_free BAD_FUNC_ARG)) []))
  = Some 0.
Proof. reflexivity. Qed.

(** C1, counterexample.  In a build with HAVE_FIPS_VERSION defined as 1,
    cleanup of a SHA-256 session returns 1 with an empty call log:
    wc_HashFree is not invoked. *)
Lemma fips_v1_cleanup_skips_wc_HashFree :
  exists w' : World Generic.we_Digest,
    @Generic.we_digest_cleanup sample_engine fips_v1_build
      (Generic.ready (sha256_session Reference.no_failure) [])
    = Some (1, w') /\
    calls w' = [] /\
    calls w' <> [Call_wc_HashFree WC_HASH_TYPE_SHA256].
Proof.
  eexists. split; [reflexivity|]. split; [reflexivity|discriminate].
Qed.

(** ** The two SHA-256 paths *)

Section Sha256Paths.
Context {E : HashEngine} {C : Sha256Coherent E}.
Import Generic.

Lemma init_paths_agree (d : we_Digest) (l ls : list EngineCall) :
  exists (r : Z) (d' : we_Digest) (l' ls' : list EngineCall),
    Direct.we_sha256_init (direct_view d ls) = Some (r, direct_view d' ls') /\
    we_sha256_init (ready d l) = Some (r, ready d' l') /\
    hashType d' = WC_HASH_TYPE_SHA256.
Proof.
  unfold we_sha256_init. rewrite we_hash_init_step.
  unfold Direct.we_sha256_init, Direct.on_sha256, direct_view, bind; simpl.
  rewrite coherent_init.
  destruct (wc_HashInit (hash d) WC_HASH_TYPE_SHA256) as [rc h']; simpl.
  eexists _, {| hash := h'; hashType := WC_HASH_TYPE_SHA256 |}, _, _.
  split; [reflexivity|]. split; reflexivity.
Qed.

Lemma update_paths_agree (data : list byte) (len : Z) (d : we_Digest)
    (l ls : list EngineCall) :
  hashType d = WC_HASH_TYPE_SHA256 ->
  exists (r : Z) (d' : we_Digest) (l' ls' : list EngineCall),
    Direct.we_sha256_update data len (direct_view d ls)
      = Some (r, direct_view d' ls') /\
    we_digest_update data len (ready d l) = Some (r, ready d' l') /\
    hashType d' = WC_HASH_TYPE_SHA256.
Proof.
  intros Ht. rewrite we_digest_update_step, Ht.
  unfold Direct.we_sha256_update, Direct.on_sha256, direct_view, bind; simpl.
  rewrite coherent_update.
  destruct (wc_HashUpdate (hash d) WC_HASH_TYPE_SHA256 data (word32 len))
    as [rc h']; simpl.
  eexists _, {| hash := h'; hashType := hashType d |}, _, _.
  split; [reflexivity|]. split; [reflexivity|exact Ht].
Qed.

Lemma final_paths_agree (d : we_Digest) (l ls : list EngineCall) :
  hashType d = WC_HASH_TYPE_SHA256 ->
  exists (r : Z * list byte) (d' : we_Digest) (l' ls' : list EngineCall),
    Direct.we_sha256_final (direct_view d ls) = Some (r, direct_view d' ls') /\
    we_digest_final (ready d l) = Some (r, ready d' l').
Proof.
  intros Ht. rewrite we_digest_final_step, Ht.
  unfold Direct.we_sha256_final, Direct.on_sha256, direct_view, bind; simpl.
  rewrite coherent_final.
  destruct (wc_HashFinal (hash d) WC_HASH_TYPE_SHA256) as [[rc h'] out]; simpl.
  eexists _, {| hash := h'; hashType := hashType d |}, _, _.
  split; reflexivity.
Qed.

Lemma updates_paths_agree (chunks : list (list byte * Z)) :
  forall (d : we_Digest) (l ls : list EngineCall),
  hashType d = WC_HASH_TYPE_SHA256 ->
  exists (rs : list Z) (d' : we_Digest) (l' ls' : list EngineCall),
    updates Direct.we_sha256_update chunks (direct_view d ls)
      = Some (rs, direct_view d' ls') /\
    updates we_digest_update chunks (ready d l) = Some (rs, ready d' l') /\
    hashType d' = WC_HASH_TYPE_SHA256.
Proof.
  induction chunks as [|[data len] rest IH]; intros d l ls Ht.
  - exists [], d, l, ls. repeat split; assumption.
  - destruct (update_paths_agree data len d l ls Ht)
      as (r & d1 & l1 & ls1 & Hd & Hg & Ht1).
    destruct (IH d1 l1 ls1 Ht1) as (rs & d2 & l2 & ls2 & Hds & Hgs & Ht2).
    exists (r :: rs), d2, l2, ls2.
    simpl; unfold bind. rewrite Hd, Hg, Hds, Hgs.
    repeat split; assumption.
Qed.

(** C3.  Over an engine whose generic SHA-256 entry points run the
    fixed-function ones, the fixed-function path and the generic path
    started on the same handle give the same transcript for the same
    chunks: the same result for init and for every update, and the same
    result and digest bytes for final. *)
Theorem sha256_paths_agree (chunks : list (list byte * Z)) (d : we_Digest)
    (l ls : list EngineCall) :
  result (session Direct.we_sha256_init Direct.we_sha256_update
                  Direct.we_sha256_final chunks (direct_view d ls))
  = result (session we_sha256_init we_digest_update we_digest_final
                    chunks (ready d l))
  /\ is_Some (result (session we_sha256_init we_digest_update we_digest_final
                              chunks (ready d l))).
Proof.
  destruct (init_paths_agree d l ls) as (r0 & d1 & l1 & ls1 & Hd0 & Hg0 & Ht1).
  destruct (updates_paths_agree chunks d1 l1 ls1 Ht1)
    as (rs & d2 & l2 & ls2 & Hds & Hgs & Ht2).
  destruct (final_paths_agree d2 l2 ls2 Ht2)
    as (rf & d3 & l3 & ls3 & Hdf & Hgf).
  unfold session, bind.
  rewrite Hd0, Hg0, Hds, Hgs, Hdf, Hgf. simpl.
  split; [reflexivity|eexists; reflexivity].
Qed.

End Sha256Paths.

(** C3, at a concrete input: the message "abc" fed as "ab" then "c". *)
Lemma sha256_paths_agree_witness :
  result (session (@Direct.we_sha256_init sample_engine)
                  Direct.we_sha256_update Direct.we_sha256_final
                  [([x61; x62], 2); ([x63], 1)]
                  (@direct_view sample_engine sample_coherent
                     (sha256_session Reference.no_failure) []))
  = result (session (@Generic.we_sha256_init sample_engine)
                    Generic.we_digest_update Generic.we_digest_final
                    [([x61; x62], 2); ([x63], 1)]
                    (Generic.ready (sha256_session Reference.no_failure) []))
  /\ is_Some
       (result (session (@Generic.we_sha256_init sample_engine)
                        Generic.we_digest_update Generic.we_digest_final
                        [([x61; x62], 2); ([x63], 1)]
                        (Generic.ready
                           (sha256_session Reference.no_failure) []))).
Proof.
  apply (@sha256_paths_agree sample_engine sample_coherent).
Defined.

(** The transcript of that run on the reference engine whose digest is the
    message itself. *)
Example sha256_generic_abc :
  result (session (@Generic.we_sha256_init sample_engine)
                  Generic.we_digest_update Generic.we_digest_final
                  [([x61; x62], 2); ([x63], 1)]
                  (Generic.ready (sha256_session Reference.no_failure) []))
  = Some (1, [1; 1], (1, [x61; x62; x63])).
Proof. reflexivity. Qed.

(** ** Method registration *)

Section RegistrySteps.
Context {D : Type}.

Lemma put_meth_twice (p : positive) (m m' : EVP_MD D) (r : Registry D) :
  put_meth p m' (put_meth p m r) = put_meth p m' r.
Proof.
  unfold put_meth; cbn [meths we_md]. f_equal. apply insert_insert_eq.
Qed.

(** A setter on a live descriptor: it returns what the environment says,
    and the descriptor changes only when that is 1. *)
Lemma meth_set_live (rv : Z) (upd : EVP_MD D -> EVP_MD D) (p : positive)
    (m : EVP_MD D) (r : Registry D) :
  exists m' : EVP_MD D,
    meth_set rv (Some p) upd (put_meth p m r) = Some (rv, put_meth p m' r) /\
    (rv = 1 -> m' = upd m) /\ (rv <> 1 -> m' = m).
Proof.
  unfold meth_set, bind, meth_load, meth_store, int_eq.
  cbn [meths we_md put_meth]. rewrite lookup_insert_eq.
  destruct (Z.eqb_spec rv 1) as [->|Hne].
  - exists (upd m). unfold pure. rewrite <- (put_meth_twice p m (upd m) r).
    split; [reflexivity|]. split; [reflexivity|congruence].
  - exists m. split; [reflexivity|]. split; [congruence|reflexivity].
Qed.

(** [if (ret == 1) ret = setter(...)] on a live descriptor. *)
Lemma if_ok_meth_set (ret rv : Z) (upd : EVP_MD D -> EVP_MD D) (p : positive)
    (m : EVP_MD D) (r : Registry D) :
  exists (ret' : Z) (m' : EVP_MD D),
    if_ok ret (meth_set rv (Some p) upd) (put_meth p m r)
      = Some (ret', put_meth p m' r) /\
    (ret' = 1 -> ret = 1 /\ m' = upd m) /\
    (ret <> 1 -> ret' = ret /\ m' = m) /\
    (ret' <> 1 -> m' = m).
Proof.
  unfold if_ok, int_eq. destruct (Z.eqb_spec ret 1) as [->|Hne].
  - destruct (meth_set_live rv upd p m r) as (m' & Hs & H1 & H0).
    exists rv, m'. split; [exact Hs|].
    split; [intros ->; split; [reflexivity|apply H1; reflexivity]|].
    split; [congruence|exact H0].
  - exists ret, m. split; [reflexivity|].
    split; [congruence|]. split; [intros _; split; reflexivity|reflexivity].
Qed.

(** The same step with the descriptor read from the global pointer. *)
Lemma if_ok_global_set (alg : wc_HashType) (ret rv : Z)
    (upd : EVP_MD D -> EVP_MD D) (p : positive) (m : EVP_MD D)
    (r : Registry D) :
  we_md r alg = Some p ->
  exists (ret' : Z) (m' : EVP_MD D),
    if_ok ret (let* md := get_we_md alg in meth_set rv md upd) (put_meth p m r)
      = Some (ret', put_meth p m' r) /\
    (ret' = 1 -> ret = 1 /\ m' = upd m) /\
    (ret <> 1 -> ret' = ret /\ m' = m) /\
    (ret' <> 1 -> m' = m).
Proof.
  intros Hg.
  destruct (if_ok_meth_set ret rv upd p m r) as (ret' & m' & Hs & H).
  exists ret', m'. split; [|exact H].
  revert Hs. unfold if_ok. destruct (int_eq ret 1); [|trivial].
  unfold bind at 1, get_we_md. cbn [we_md put_meth]. rewrite Hg. trivial.
Qed.

(** The closing [if ((ret != 1) && (md != NULL)) EVP_MD_meth_free(md)]
    with the global pointing at a live descriptor: on failure the
    descriptor is released and the global keeps its address. *)
Lemma release_on_failure (alg : wc_HashType) (ret : Z) (p : positive)
    (m : EVP_MD D) (r : Registry D) :
  we_md r alg = Some p ->
  exists r' : Registry D,
    (let* md := get_we_md alg in
     let* _ := if int_ne ret 1 && bool_decide (md <> None)
               then EVP_MD_meth_free md else pure tt in
     pure ret) (put_meth p m r) = Some (ret, r') /\
    we_md r' = we_md r /\
    (ret = 1 -> r' = put_meth p m r) /\
    (ret <> 1 -> meths r' !! p = None).
Proof.
  intros Hg. unfold bind at 1, get_we_md. cbn [we_md put_meth]. rewrite Hg.
  unfold int_ne. destruct (Z.eqb_spec ret 1) as [->|Hne]; cbn [negb andb].
  - exists (put_meth p m r). split; [reflexivity|].
    split; [reflexivity|]. split; [reflexivity|congruence].
  - rewrite bool_decide_eq_true_2 by discriminate.
    unfold bind, EVP_MD_meth_free, bind, meth_load.
    cbn [meths we_md put_meth]. rewrite lookup_insert_eq.
    eexists. split; [reflexivity|]. cbn [meths we_md].
    split; [reflexivity|]. split; [congruence|].
    intros _. apply lookup_delete_eq.
Qed.

End RegistrySteps.

Lemma bind_eq {S A B : Type} (m : M S A) (k : A -> M S B) (s s' : S) (a : A) :
  m s = Some (a, s') -> (let* x := m in k x) s = k a s'.
Proof. intros H. unfold bind. rewrite H. reflexivity. Qed.

Section GenericRegistration.
Context {E : HashEngine}.
Import Generic.

(** One guarded setter step of a registration chain, taken on the goal. *)
Ltac chain_step ret' m' Hs H1 :=
  lazymatch goal with
  | |- context [bind (if_ok ?ret (meth_set ?rv (Some ?p) ?upd)) _
                     (put_meth ?p ?m ?r)] =>
      destruct (if_ok_meth_set ret rv upd p m r)
        as (ret' & m' & Hs & H1 & _ & _);
      rewrite (bind_eq _ _ _ _ _ Hs)
  end.

Lemma we_init_digest_meth_live (cfg : BuildConfig) (o : MethOutcome)
    (p : positive) (m : EVP_MD we_Digest) (r : Registry we_Digest) :
  exists (ret : Z) (m' : EVP_MD we_Digest),
    we_init_digest_meth cfg o (Some p) (put_meth p m r)
      = Some (ret, put_meth p m' r) /\
    (ret = 1 ->
     md_type m' = md_type m /\
     md_init m' = md_init m /\
     md_result_size m' = md_result_size m /\
     md_update m' = Some we_digest_update /\
     md_final m' = Some we_digest_final /\
     md_cleanup m' = Some (we_digest_cleanup cfg) /\
     md_app_datasize m' = sizeof_we_Digest cfg).
Proof.
  unfold we_init_digest_meth, EVP_MD_meth_set_update, EVP_MD_meth_set_final,
    EVP_MD_meth_set_cleanup, EVP_MD_meth_set_app_datasize.
  destruct (meth_set_live (set_update_ret o)
              (fun m0 : EVP_MD we_Digest =>
                 {| md_type := md_type m0; md_pkey_type := md_pkey_type m0;
                    md_init := md_init m0;
                    md_update := Some we_digest_update;
                    md_final := md_final m0; md_cleanup := md_cleanup m0;
                    md_result_size := md_result_size m0;
                    md_app_datasize := md_app_datasize m0;
                    md_flags := md_flags m0;
                    md_required_pkey_type := md_required_pkey_type m0 |})
              p m r) as (m1 & Hs1 & H1 & _).
  rewrite (bind_eq _ _ _ _ _ Hs1).
  chain_step ret2 m2 Hs2 H2.
  chain_step ret3 m3 Hs3 H3.
  chain_step ret4 m4 Hs4 H4.
  assert (Hfields : ret4 = 1 ->
     md_type m4 = md_type m /\ md_init m4 = md_init m /\
     md_result_size m4 = md_result_size m /\
     md_update m4 = Some we_digest_update /\
     md_final m4 = Some we_digest_final /\
     md_cleanup m4 = Some (we_digest_cleanup cfg) /\
     md_app_datasize m4 = sizeof_we_Digest cfg).
  { intros R4. destruct (H4 R4) as [R3 ->]. destruct (H3 R3) as [R2 ->].
    destruct (H2 R2) as [R1 ->]. rewrite (H1 R1). cbn.
    repeat split; reflexivity. }
  destruct (legacy_pkey cfg) as [bs|].
  - unfold int_eq. destruct (Z.eqb_spec ret4 1) as [R4|Hne].
    + unfold legacy_pkey_setup, bind, meth_load, meth_store, pure.
      cbn [meths we_md put_meth]. rewrite lookup_insert_eq.
      eexists ret4, _. split.
      * unfold put_meth. cbn [meths we_md]. rewrite insert_insert_eq.
        reflexivity.
      * intros _. cbn. exact (Hfields R4).
    + exists ret4, m4. split; [reflexivity|]. intros R4. contradiction.
  - exists ret4, m4. split; [reflexivity|exact Hfields].
Qed.

(** What a registration leaves behind.  It always returns.  Without
    memory it returns 0 and the global is null.  With memory the global
    holds the new address [p]; on success the descriptor at [p] is fully
    bound, and on failure the descriptor at [p] has been released while the
    global still holds [p]. *)
Lemma we_init_meth_outcome (cfg : BuildConfig) (o : MethOutcome)
    (alg : wc_HashType) (nid : Z) (init : M (World we_Digest) Z) (size : Z)
    (r0 : Registry we_Digest) :
  exists (ret : Z) (r1 : Registry we_Digest),
    we_init_meth cfg o alg nid init size r0 = Some (ret, r1) /\
    (meth_new_ok o = false ->
     ret = 0 /\ we_md r1 alg = None /\ meths r1 = meths r0) /\
    (meth_new_ok o = true ->
     we_md r1 alg = Some (fresh (dom (meths r0))) /\
     (ret <> 1 -> meths r1 !! fresh (dom (meths r0)) = None) /\
     (ret = 1 ->
      exists md : EVP_MD we_Digest,
        meths r1 !! fresh (dom (meths r0)) = Some md /\
        fully_bound cfg nid init size md)).
Proof.
  unfold we_init_meth, EVP_MD_meth_new.
  destruct (meth_new_ok o) eqn:Hnew.
  - unfold bind at 1. unfold bind at 1, set_we_md. cbn [meths we_md].
    set (p := fresh (dom (meths r0))).
    set (ra := {| meths := meths r0; we_md := <[alg := Some p]> (we_md r0) |}).
    assert (Hg : we_md ra alg = Some p) by apply fn_lookup_insert.
    match goal with
    | |- context [{| meths := <[p := ?m]> (meths r0); we_md := _ |}] =>
        change {| meths := <[p := m]> (meths r0);
                  we_md := <[alg := Some p]> (we_md r0) |}
          with (put_meth p m ra);
        set (m0 := m)
    end.
    unfold EVP_MD_meth_set_init, EVP_MD_meth_set_result_size.
    match goal with
    | |- context [bind (if_ok ?ret (bind (get_we_md alg)
                                          (fun md => meth_set ?rv md ?upd))) _
                       (put_meth p ?m ra)] =>
        destruct (if_ok_global_set alg ret rv upd p m ra Hg)
          as (ret1 & m1 & Hs1 & H1 & _ & _);
        rewrite (bind_eq _ _ _ _ _ Hs1)
    end.
    match goal with
    | |- context [bind (if_ok ?ret (bind (get_we_md alg)
                                          (fun md => meth_set ?rv md ?upd))) _
                       (put_meth p ?m ra)] =>
        destruct (if_ok_global_set alg ret rv upd p m ra Hg)
          as (ret2 & m2 & Hs2 & H2 & _ & _);
        rewrite (bind_eq _ _ _ _ _ Hs2)
    end.
    assert (Hs3 : exists (ret3 : Z) (m3 : EVP_MD we_Digest),
               if_ok ret2 (let* md := get_we_md alg in
                           we_init_digest_meth cfg o md) (put_meth p m2 ra)
                 = Some (ret3, put_meth p m3 ra) /\
               (ret3 = 1 -> fully_bound cfg nid init size m3)).
    { unfold if_ok, int_eq. destruct (Z.eqb_spec ret2 1) as [R2|Hne].
      - unfold bind at 1, get_we_md. cbn [we_md put_meth]. rewrite Hg.
        destruct (we_init_digest_meth_live cfg o p m2 ra)
          as (ret3 & m3 & Hs3 & H3).
        exists ret3, m3. split; [exact Hs3|].
        intros R3. destruct (H3 R3) as (F1 & F2 & F3 & F4 & F5 & F6 & F7).
        destruct (H2 R2) as [R1 ->]. destruct (H1 R1) as [_ ->].
        cbn in F1, F2, F3. repeat split; assumption.
      - exists ret2, m2. split; [reflexivity|]. intros R. contradiction. }
    destruct Hs3 as (ret3 & m3 & Hs3 & H3).
    rewrite (bind_eq _ _ _ _ _ Hs3).
    destruct (release_on_failure alg ret3 p m3 ra Hg)
      as (r1 & Hrel & Hmd & Hok & Hko).
    exists ret3, r1. split; [exact Hrel|].
    split; [discriminate|]. intros _.
    split; [rewrite Hmd; exact Hg|]. split; [exact Hko|].
    intros R3. exists m3. rewrite (Hok R3).
    split; [apply lookup_insert_eq|exact (H3 R3)].
  - exists 0, {| meths := meths r0; we_md := <[alg := None]> (we_md r0) |}.
    split.
    + unfold bind, set_we_md, if_ok, get_we_md, pure, int_eq, int_ne.
      cbn [we_md meths Z.eqb negb andb]. rewrite fn_lookup_insert.
      rewrite bool_decide_eq_false_2 by (intros H; apply H; reflexivity).
      reflexivity.
    + split; [|discriminate]. intros _.
      split; [reflexivity|]. split; [apply fn_lookup_insert|reflexivity].
Qed.

Lemma we_init_meth_of_outcome (alg : wc_HashType) (cfg : BuildConfig)
    (o : MethOutcome) (r0 : Registry we_Digest) :
  exists (ret : Z) (r1 : Registry we_Digest),
    we_init_meth_of alg cfg o r0 = Some (ret, r1) /\
    (meth_new_ok o = false ->
     ret = 0 /\ we_md r1 alg = None /\ meths r1 = meths r0) /\
    (meth_new_ok o = true ->
     we_md r1 alg = Some (fresh (dom (meths r0))) /\
     (ret <> 1 -> meths r1 !! fresh (dom (meths r0)) = None) /\
     (ret = 1 ->
      exists md : EVP_MD we_Digest,
        meths r1 !! fresh (dom (meths r0)) = Some md /\
        md_init md = Some (we_init_of alg) /\
        md_result_size md = wc_HashGetDigestSize alg /\
        md_update md = Some we_digest_update /\
        md_final md = Some we_digest_final /\
        md_cleanup md = Some (we_digest_cleanup cfg))).
Proof.
  destruct alg; cbn [we_init_meth_of we_init_of wc_HashGetDigestSize];
    unfold we_init_sha256_meth, we_init_sha384_meth, we_init_sha512_meth,
      we_init_sha3_224_meth, we_init_sha3_256_meth, we_init_sha3_384_meth,
      we_init_sha3_512_meth;
    match goal with
    | |- context [we_init_meth cfg o ?a ?nid ?init ?size r0] =>
        destruct (we_init_meth_outcome cfg o a nid init size r0)
          as (ret & r1 & Hrun & Hnomem & Hmem)
    end;
    exists ret, r1; (split; [exact Hrun|]); (split; [exact Hnomem|]);
    intros Hnew; destruct (Hmem Hnew) as (Hg & Hko & Hok);
    (split; [exact Hg|]); (split; [exact Hko|]);
    intros R; destruct (Hok R) as (md & Hmd & F1 & F2 & F3 & F4 & F5 & F6 & F7);
    exists md; repeat split; assumption.
Qed.

(** A failed registration that did allocate: the routine reports failure
    and the descriptor is released, but the global pointer of the
    algorithm is not reset and still holds the released address. *)
Lemma failed_registration_dangles (alg : wc_HashType) (cfg : BuildConfig)
    (o : MethOutcome) (r0 r1 : Registry we_Digest) (ret : Z) :
  meth_new_ok o = true ->
  we_init_meth_of alg cfg o r0 = Some (ret, r1) ->
  ret <> 1 ->
  exists p : positive, we_md r1 alg = Some p /\ meths r1 !! p = None.
Proof.
  intros Hnew Hrun Hret.
  destruct (we_init_meth_of_outcome alg cfg o r0)
    as (ret' & r1' & Hrun' & _ & Hmem).
  rewrite Hrun in Hrun'. injection Hrun' as <- <-.
  destruct (Hmem Hnew) as (Hg & Hko & _).
  exists (fresh (dom (meths r0))). split; [exact Hg|exact (Hko Hret)].
Qed.

Lemma updates_keep_hashType (chunks : list (list byte * Z)) :
  forall (d : we_Digest) (l : list EngineCall),
  exists (rs : list Z) (d' : we_Digest) (l' : list EngineCall),
    updates we_digest_update chunks (ready d l) = Some (rs, ready d' l') /\
    hashType d' = hashType d.
Proof.
  induction chunks as [|[data len] rest IH]; intros d l.
  - exists [], d, l. split; reflexivity.
  - simpl. rewrite (bind_eq _ _ _ _ _ (we_digest_update_step data len d l)).
    edestruct IH as (rs & d' & l' & Hrs & Ht).
    rewrite (bind_eq _ _ _ _ _ Hrs).
    eexists _, d', l'. split; [reflexivity|exact Ht].
Qed.

(** A session of algorithm [alg] whose final succeeds has written
    [wc_HashGetDigestSize alg] bytes, on an engine that keeps to its size
    table. *)
Lemma final_length (alg : wc_HashType) (chunks : list (list byte * Z))
    (d : we_Digest) (l : list EngineCall) (r : Z) (rs : list Z)
    (out : list byte) :
  final_writes_digest_size E ->
  result (session (we_init_of alg) we_digest_update we_digest_final chunks
                  (ready d l)) = Some (r, rs, (1, out)) ->
  Z.of_nat (length out) = wc_HashGetDigestSize alg.
Proof.
  intros Hlaw. unfold session.
  rewrite (bind_eq _ _ _ _ _ (we_init_of_step alg d l)).
  edestruct (updates_keep_hashType chunks) as (rs' & d2 & l2 & Hrs & Ht).
  rewrite (bind_eq _ _ _ _ _ Hrs).
  rewrite (bind_eq _ _ _ _ _ (we_digest_final_step d2 l2)).
  cbn in Ht. unfold pure, result; cbn. intros [= _ _ Hrc Hout].
  apply status_to_result_1 in Hrc. rewrite Ht in Hrc, Hout.
  destruct (wc_HashFinal (hash d2) alg) as [[rc h'] out'] eqn:Hf.
  cbn in Hrc, Hout. subst rc out'. exact (Hlaw _ _ _ _ Hf).
Qed.

(** C6.  After a successful registration of an algorithm, the descriptor
    behind the algorithm's global is bound to that algorithm's
    initializer, and the result size registered in it is the number of
    bytes that a successful final writes in any session started by that
    initializer. *)
Theorem registered_size_is_final_length (alg : wc_HashType)
    (cfg : BuildConfig) (o : MethOutcome) (r0 : Registry we_Digest) :
  final_writes_digest_size E ->
  result (we_init_meth_of alg cfg o r0) = Some 1 ->
  exists (r1 : Registry we_Digest) (p : positive) (md : EVP_MD we_Digest),
    final_state (we_init_meth_of alg cfg o r0) = Some r1 /\
    we_md r1 alg = Some p /\ meths r1 !! p = Some md /\
    md_init md = Some (we_init_of alg) /\
    md_update md = Some we_digest_update /\
    md_final md = Some we_digest_final /\
    md_result_size md = wc_HashGetDigestSize alg /\
    forall (chunks : list (list byte * Z)) (d : we_Digest)
           (l : list EngineCall) (r : Z) (rs : list Z) (out : list byte),
      result (session (we_init_of alg) we_digest_update we_digest_final
                      chunks (ready d l)) = Some (r, rs, (1, out)) ->
      Z.of_nat (length out) = md_result_size md.
Proof.
  intros Hlaw Hrun.
  destruct (we_init_meth_of_outcome alg cfg o r0)
    as (ret & r1 & Hrun' & Hnomem & Hmem).
  rewrite Hrun' in Hrun |- *. injection Hrun as ->.
  exists r1.
  destruct (meth_new_ok o) eqn:Hnew.
  - destruct (Hmem eq_refl) as (Hg & _ & Hok).
    destruct (Hok eq_refl) as (md & Hmd & Fi & Fs & Fu & Ff & _).
    exists (fresh (dom (meths r0))), md.
    split; [reflexivity|].
    repeat (split; [assumption|]).
    intros chunks d l r rs out Hses. rewrite Fs.
    exact (final_length alg chunks d l r rs out Hlaw Hses).
  - destruct (Hnomem eq_refl) as (H01 & _). discriminate H01.
Qed.

End GenericRegistration.

(** C6, on the reference engine: SHA-256 registered from scratch. *)
Lemma zero_engine_final_size : final_writes_digest_size zero_engine.
Proof.
  intros h t h' out Hf.
  change ((0, ([] : list byte), Reference.zero_digest t h) = (0, h', out))
    in Hf.
  injection Hf as _ <-.
  unfold Reference.zero_digest. rewrite length_replicate.
  destruct t; reflexivity.
Qed.

Lemma registered_size_is_final_length_witness :
  final_writes_digest_size zero_engine /\
  result (Generic.we_init_meth_of WC_HASH_TYPE_SHA256 default_build all_ok
            (@empty_registry (@Generic.we_Digest zero_engine))) = Some 1 /\
  exists (r1 : Registry (@Generic.we_Digest zero_engine)) (p : positive)
         (md : EVP_MD (@Generic.we_Digest zero_engine)),
    final_state (Generic.we_init_meth_of WC_HASH_TYPE_SHA256 default_build
                   all_ok empty_registry) = Some r1 /\
    we_md r1 WC_HASH_TYPE_SHA256 = Some p /\
    meths r1 !! p = Some md /\
    md_init md = Some (Generic.we_init_of WC_HASH_TYPE_SHA256) /\
    md_update md = Some Generic.we_digest_update /\
    md_final md = Some Generic.we_digest_final /\
    md_result_size md = wc_HashGetDigestSize WC_HASH_TYPE_SHA256 /\
    forall (chunks : list (list byte * Z))
           (d : @Generic.we_Digest zero_engine)
           (l : list EngineCall) (r : Z) (rs : list Z) (out : list byte),
      result (session (Generic.we_init_of WC_HASH_TYPE_SHA256)
                      Generic.we_digest_update Generic.we_digest_final
                      chunks (Generic.ready d l)) = Some (r, rs, (1, out)) ->
      Z.of_nat (length out) = md_result_size md.
Proof.
  split; [exact zero_engine_final_size|].
  split; [vm_compute; reflexivity|].
  apply (@registered_size_is_final_length zero_engine WC_HASH_TYPE_SHA256
           default_build all_ok empty_registry zero_engine_final_size).
  vm_compute; reflexivity.
Defined.

(** A successful final does occur: SHA-256 of "abc" on that engine is 32
    bytes long, the size registered. *)
Example zero_engine_sha256_abc :
  (fun t => (fst t, length (snd t))) <$>
    digest_of (result (session (@Generic.we_sha256_init zero_engine)
                         Generic.we_digest_update Generic.we_digest_final
                         (whole [x61; x62; x63])
                         (Generic.ready
                            (@Generic.Build_we_Digest zero_engine []
                               WC_HASH_TYPE_SHA3_512) [])))
  = Some (1, 32%nat).
Proof. reflexivity. Qed.

(** C7, at a failing input.  SHA-256 is registered from an empty registry;
    the descriptor is allocated and EVP_MD_meth_set_init fails.  The
    routine returns 0 and releases the descriptor, and we_sha256_md is
    left holding the released address. *)
Theorem failed_registration_leaves_global_set :
  exists (r1 : Registry (@Generic.we_Digest sample_engine)) (p : positive),
    Generic.we_init_sha256_meth default_build set_init_fails empty_registry
      = Some (0, r1) /\
    we_md r1 WC_HASH_TYPE_SHA256 = Some p /\
    meths r1 !! p = None.
Proof.
  eexists _, 1%positive.
  split; [vm_compute; reflexivity|]. split; reflexivity.
Qed.

(** ** Chunked input *)

Lemma word32_small (n : Z) : 0 <= n < 2 ^ 32 -> word32 n = n.
Proof. intros H. unfold word32. apply Z.mod_small. exact H. Qed.

Lemma word32_4GiB : word32 (2 ^ 32) = 0.
Proof. reflexivity. Qed.

Lemma absorbed_whole (data : list byte) :
  Z.of_nat (length data) < 2 ^ 32 -> absorbed (whole data) = data.
Proof.
  intros Hm. unfold whole, absorbed.
  rewrite word32_small by lia. rewrite Nat2Z.id.
  rewrite app_nil_r. apply take_ge. lia.
Qed.

Lemma absorbed_split_at (n : nat) (data : list byte) :
  (n <= length data)%nat ->
  Z.of_nat n < 2 ^ 32 ->
  Z.of_nat (length data) - Z.of_nat n < 2 ^ 32 ->
  absorbed (split_at n data) = data.
Proof.
  intros Hn Hlo Hhi. unfold split_at, absorbed.
  rewrite !word32_small by lia. rewrite Nat2Z.id, app_nil_r.
  rewrite (take_ge (take n data)) by (rewrite length_take; lia).
  rewrite (take_ge (drop n data)) by (rewrite length_drop; lia).
  apply take_drop.
Qed.

Section ReferenceSessions.
Variable digest_fn : wc_HashType -> list byte -> list byte.
Import Generic.

Local Abbreviation RE := (Reference.engine digest_fn Reference.no_failure).

Lemma reference_updates (chunks : list (list byte * Z)) :
  forall (d : @we_Digest RE) (l : list EngineCall),
  exists l' : list EngineCall,
    updates (@we_digest_update RE) chunks (ready d l)
    = Some (map (fun _ => 1) chunks,
            ready (with_hash d (hash d ++ absorbed chunks)) l').
Proof.
  induction chunks as [|[data len] rest IH]; intros d l.
  - exists l. cbn [updates absorbed map]. unfold pure, with_hash.
    rewrite app_nil_r. destruct d; reflexivity.
  - cbn [updates absorbed map].
    rewrite (bind_eq _ _ _ _ _ (we_digest_update_step data len d l)).
    edestruct IH as (l' & Hrest). rewrite (bind_eq _ _ _ _ _ Hrest).
    exists l'. unfold pure, with_hash. cbn. rewrite <- app_assoc. reflexivity.
Qed.

(** On the reference engine a session returns 1 throughout and its digest
    is [digest_fn] of the bytes the updates handed over. *)
Lemma reference_session (alg : wc_HashType) (chunks : list (list byte * Z))
    (d : @we_Digest RE) (l : list EngineCall) :
  digest_of (result (session (@we_init_of RE alg) we_digest_update
                             we_digest_final chunks (ready d l)))
  = Some (1, digest_fn alg (absorbed chunks)).
Proof.
  unfold session.
  rewrite (bind_eq _ _ _ _ _ (we_init_of_step alg d l)).
  edestruct (reference_updates chunks) as (l' & Hups).
  rewrite (bind_eq _ _ _ _ _ Hups).
  rewrite (bind_eq _ _ _ _ _ (we_digest_final_step _ _)).
  reflexivity.
Qed.

(** Below 4 GiB the split does not matter: two updates at any split
    point give the digest of one update. *)
Lemma chunking_invariance_below_4GiB (alg : wc_HashType) (n : nat)
    (data : list byte) (d : @we_Digest RE) (l : list EngineCall) :
  Z.of_nat (length data) < 2 ^ 32 ->
  (n <= length data)%nat ->
  digest_of (result (session (@we_init_of RE alg) we_digest_update
                             we_digest_final (split_at n data) (ready d l)))
  = digest_of (result (session (@we_init_of RE alg) we_digest_update
                               we_digest_final (whole data) (ready d l))).
Proof.
  intros Hm Hn. rewrite !reference_session.
  rewrite absorbed_whole by exact Hm.
  rewrite absorbed_split_at by lia. reflexivity.
Qed.

Lemma four_gib_length : Z.of_nat (length four_gib) = 2 ^ 32.
Proof.
  unfold four_gib. rewrite length_replicate. apply Z2Nat.id. discriminate.
Qed.

Lemma four_gib_nonempty : four_gib <> [].
Proof.
  intros Heq. pose proof four_gib_length as Hlen.
  rewrite Heq in Hlen. discriminate Hlen.
Qed.

Lemma absorbed_whole_four_gib : absorbed (whole four_gib) = [].
Proof.
  unfold whole, absorbed. rewrite four_gib_length, word32_4GiB. reflexivity.
Qed.

Lemma absorbed_split_four_gib : absorbed (split_at 1 four_gib) = four_gib.
Proof.
  pose proof four_gib_length as Hlen.
  apply absorbed_split_at; lia.
Qed.

(** At 4 GiB the single update hands the engine nothing, the split one
    hands it the whole buffer. *)
Lemma four_gib_digests (alg : wc_HashType) (d : @we_Digest RE)
    (l : list EngineCall) :
  digest_of (result (session (@we_init_of RE alg) we_digest_update
                             we_digest_final (whole four_gib) (ready d l)))
  = Some (1, digest_fn alg [])
  /\ digest_of (result (session (@we_init_of RE alg) we_digest_update
                                we_digest_final (split_at 1 four_gib)
                                (ready d l)))
  = Some (1, digest_fn alg four_gib).
Proof.
  rewrite !reference_session.
  rewrite absorbed_whole_four_gib, absorbed_split_four_gib.
  split; reflexivity.
Qed.

End ReferenceSessions.

Lemma digest_bytes_inj (r r' : Z) (out out' : list byte) :
  Some (r, out) = Some (r', out') -> out = out'.
Proof. intros [= _ Hout]. exact Hout. Qed.

(** C2, at a failing input.  A buffer of 2^32 bytes is digested with
    SHA-256 on the reference engine whose digest is the message itself.
    Fed in one update, the length is cut to 32 bits, the engine is handed
    no byte and final yields the digest of the empty message.  Split after
    the first byte, the engine is handed the whole buffer.  The two
    digests differ. *)
Theorem chunking_breaks_at_4GiB :
  digest_of (result (session (@Generic.we_sha256_init sample_engine)
                             Generic.we_digest_update Generic.we_digest_final
                             (whole four_gib)
                             (Generic.ready
                                (sha256_session Reference.no_failure) [])))
  = Some (1, [])
  /\ digest_of (result (session (@Generic.we_sha256_init sample_engine)
                                Generic.we_digest_update
                                Generic.we_digest_final
                                (split_at 1 four_gib)
                                (Generic.ready
                                   (sha256_session Reference.no_failure) [])))
  = Some (1, four_gib)
  /\ digest_of (result (session (@Generic.we_sha256_init sample_engine)
                                Generic.we_digest_update
                                Generic.we_digest_final
                                (whole four_gib)
                                (Generic.ready
                                   (sha256_session Reference.no_failure) [])))
  <> digest_of (result (session (@Generic.we_sha256_init sample_engine)
                                Generic.we_digest_update
                                Generic.we_digest_final
                                (split_at 1 four_gib)
                                (Generic.ready
                                   (sha256_session Reference.no_failure) []))).
Proof.
  destruct (four_gib_digests Reference.identity_digest WC_HASH_TYPE_SHA256
              (sha256_session Reference.no_failure) []) as [Hw Hs].
  change (Generic.we_init_of WC_HASH_TYPE_SHA256)
    with (@Generic.we_sha256_init
            (Reference.engine Reference.identity_digest Reference.no_failure))
    in Hw, Hs.
  unfold sample_engine.
  rewrite Hw, Hs. unfold Reference.identity_digest.
  split; [reflexivity|]. split; [reflexivity|].
  intros Heq. apply four_gib_nonempty. symmetry.
  exact (digest_bytes_inj 1 1 [] four_gib Heq).
Qed.

(** The fixed-function registration has the same ending: with the
    descriptor allocated and EVP_MD_meth_set_init failing, it returns 0,
    releases the descriptor and leaves we_sha256_md at the released
    address. *)
Example direct_failed_registration :
  exists (r1 : Registry (@wc_Sha256 sample_engine)) (p : positive),
    Direct.we_init_sha256_meth default_build set_init_fails empty_registry
      = Some (0, r1) /\
    we_md r1 WC_HASH_TYPE_SHA256 = Some p /\
    meths r1 !! p = None.
Proof.
  eexists _, 1%positive.
  split; [vm_compute; reflexivity|]. split; reflexivity.
Qed.

(** Registration without memory: failure is reported and the global is
    null. *)
Example registration_without_memory :
  exists r1 : Registry (@Generic.we_Digest sample_engine),
    Generic.we_init_sha256_meth default_build
      {| meth_new_ok := false; set_init_ret := 1; set_update_ret := 1;
         set_final_ret := 1; set_cleanup_ret := 1; set_result_size_ret := 1;
         set_app_datasize_ret := 1 |} empty_registry
      = Some (0, r1) /\
    we_md r1 WC_HASH_TYPE_SHA256 = None.
Proof.
  eexists. split; [vm_compute; reflexivity|reflexivity].
Qed.

(** * Further properties of the adapter *)

(** ** The fixed-function path, step by step *)

Section DirectSteps.
Context {E : HashEngine}.

Lemma direct_init_step (s : wc_Sha256) (l : list EngineCall) :
  Direct.we_sha256_init (direct_ready s l) =
  Some (status_to_result (fst (wc_InitSha256 s)),
        direct_ready (snd (wc_InitSha256 s)) (l ++ [Call_wc_InitSha256])).
Proof.
  unfold Direct.we_sha256_init, Direct.on_sha256, direct_ready, bind; simpl.
  destruct (wc_InitSha256 s) as [rc s']; reflexivity.
Qed.

Lemma direct_update_step (data : list byte) (len : Z) (s : wc_Sha256)
    (l : list EngineCall) :
  Direct.we_sha256_update data len (direct_ready s l) =
  Some (status_to_result (fst (wc_Sha256Update s data (word32 len))),
        direct_ready (snd (wc_Sha256Update s data (word32 len)))
                     (l ++ [Call_wc_Sha256Update data (word32 len)])).
Proof.
  unfold Direct.we_sha256_update, Direct.on_sha256, direct_ready, bind; simpl.
  destruct (wc_Sha256Update s data (word32 len)) as [rc s']; reflexivity.
Qed.

Lemma direct_final_step (s : wc_Sha256) (l : list EngineCall) :
  Direct.we_sha256_final (direct_ready s l) =
  Some ((status_to_result (fst (fst (wc_Sha256Final s))),
         snd (wc_Sha256Final s)),
        direct_ready (snd (fst (wc_Sha256Final s)))
                     (l ++ [Call_wc_Sha256Final])).
Proof.
  unfold Direct.we_sha256_final, Direct.on_sha256, direct_ready, bind; simpl.
  destruct (wc_Sha256Final s) as [[rc s'] out]; reflexivity.
Qed.

(** X1.  On a context that has data, the fixed-function init, update and
    final each make one engine call and return 1 exactly when its status
    is 0, and 0 exactly when it is not. *)
Theorem direct_status_propagates (s : wc_Sha256) (l : list EngineCall)
    (data : list byte) (len : Z) :
  (exists (r : Z) (w' : World wc_Sha256),
     Direct.we_sha256_init (direct_ready s l) = Some (r, w') /\
     (r = 1 <-> fst (wc_InitSha256 s) = 0) /\
     (r = 0 <-> fst (wc_InitSha256 s) <> 0) /\
     calls w' = l ++ [Call_wc_InitSha256])
  /\ (exists (r : Z) (w' : World wc_Sha256),
     Direct.we_sha256_update data len (direct_ready s l) = Some (r, w') /\
     (r = 1 <-> fst (wc_Sha256Update s data (word32 len)) = 0) /\
     (r = 0 <-> fst (wc_Sha256Update s data (word32 len)) <> 0) /\
     calls w' = l ++ [Call_wc_Sha256Update data (word32 len)])
  /\ (exists (r : Z) (out : list byte) (w' : World wc_Sha256),
     Direct.we_sha256_final (direct_ready s l) = Some ((r, out), w') /\
     out = snd (wc_Sha256Final s) /\
     (r = 1 <-> fst (fst (wc_Sha256Final s)) = 0) /\
     (r = 0 <-> fst (fst (wc_Sha256Final s)) <> 0) /\
     calls w' = l ++ [Call_wc_Sha256Final]).
Proof.
  repeat split.
  - eexists _, _. split; [apply direct_init_step|].
    split; [apply status_to_result_1|].
    split; [apply status_to_result_0|reflexivity].
  - eexists _, _. split; [apply direct_update_step|].
    split; [apply status_to_result_1|].
    split; [apply status_to_result_0|reflexivity].
  - eexists _, _, _. split; [apply direct_final_step|].
    split; [reflexivity|].
    split; [apply status_to_result_1|].
    split; [apply status_to_result_0|reflexivity].
Qed.

Lemma direct_updates_log (chunks : list (list byte * Z)) :
  forall (s : wc_Sha256) (l : list EngineCall),
  exists (rs : list Z) (s' : wc_Sha256),
    updates Direct.we_sha256_update chunks (direct_ready s l)
    = Some (rs, direct_ready s' (l ++ direct_update_calls chunks)) /\
    length rs = length chunks.
Proof.
  induction chunks as [|[data len] rest IH]; intros s l.
  - exists [], s. cbn. rewrite app_nil_r. split; reflexivity.
  - cbn [updates direct_update_calls map fst snd].
    rewrite (bind_eq _ _ _ _ _ (direct_update_step data len s l)).
    edestruct IH as (rs & s' & Hrest & Hlen).
    rewrite (bind_eq _ _ _ _ _ Hrest).
    eexists (_ :: rs), s'. unfold pure. rewrite <- app_assoc.
    split; [reflexivity|]. cbn. rewrite Hlen. reflexivity.
Qed.

(** X2.  A fixed-function session never faults and reaches the engine
    through the SHA-256 entry points only: one wc_InitSha256, one
    wc_Sha256Update per chunk in order with the length cut to 32 bits,
    one wc_Sha256Final, whatever the statuses on the way. *)
Theorem direct_session_call_log (chunks : list (list byte * Z))
    (s : wc_Sha256) (l : list EngineCall) :
  exists (t : Z * list Z * (Z * list byte)) (s' : wc_Sha256),
    session Direct.we_sha256_init Direct.we_sha256_update
            Direct.we_sha256_final chunks (direct_ready s l)
    = Some (t, direct_ready s'
                 (l ++ Call_wc_InitSha256 ::
                       direct_update_calls chunks ++ [Call_wc_Sha256Final]))
    /\ length (snd (fst t)) = length chunks.
Proof.
  unfold session.
  rewrite (bind_eq _ _ _ _ _ (direct_init_step s l)).
  edestruct (direct_updates_log chunks) as (rs & s1 & Hups & Hlen).
  rewrite (bind_eq _ _ _ _ _ Hups).
  rewrite (bind_eq _ _ _ _ _ (direct_final_step _ _)).
  eexists _, _. unfold pure. rewrite <- !app_assoc. cbn [app].
  split; [reflexivity|exact Hlen].
Qed.

End DirectSteps.

(** ** The generic path: forwarding, null contexts, lengths *)

Section GenericForwarding.
Context {E : HashEngine}.
Import Generic.

Lemma run_op_log (cfg : BuildConfig) (op : SessionOp) (d : we_Digest)
    (l : list EngineCall) :
  exists d' : we_Digest,
    run_op cfg op (ready d l)
    = Some (tt, ready d' (l ++ op_calls cfg (hashType d) op)) /\
    hashType d' = hashType d.
Proof.
  destruct op as [data len| |]; unfold run_op, op_calls.
  - rewrite (bind_eq _ _ _ _ _ (we_digest_update_step data len d l)).
    eexists. split; reflexivity.
  - rewrite (bind_eq _ _ _ _ _ (we_digest_final_step d l)).
    eexists. split; reflexivity.
  - unfold bind. rewrite we_digest_cleanup_step.
    destruct (hash_free_compiled cfg).
    + eexists. split; reflexivity.
    + exists d. rewrite app_nil_r. split; reflexivity.
Qed.

(** X3.  The generic adapter keeps no lifecycle state of its own.  On a
    session that has data, any sequence of update, final and cleanup
    calls, in any order and whatever the engine answers, is forwarded
    call by call: the engine sees one call per operation, in order, each
    with the session's tag (cleanup makes none in a build with
    HAVE_FIPS_VERSION below 2). *)
Theorem run_ops_call_log (cfg : BuildConfig) (ops : list SessionOp) :
  forall (d : we_Digest) (l : list EngineCall),
  exists d' : we_Digest,
    run_ops cfg ops (ready d l)
    = Some (tt, ready d'
                  (l ++ concat (map (op_calls cfg (hashType d)) ops))) /\
    hashType d' = hashType d.
Proof.
  induction ops as [|op ops IH]; intros d l.
  - exists d. cbn. rewrite app_nil_r. split; reflexivity.
  - destruct (run_op_log cfg op d l) as (d1 & Hop & Ht1).
    destruct (IH d1 (l ++ op_calls cfg (hashType d) op))
      as (d2 & Hops & Ht2).
    exists d2. cbn [run_ops map concat].
    rewrite (bind_eq _ _ _ _ _ Hop), Hops, Ht1, <- app_assoc.
    split; [reflexivity|congruence].
Qed.


End GenericForwarding.

Lemma word32_periodic (len k : Z) : word32 (len + k * 2 ^ 32) = word32 len.
Proof. unfold word32. apply Z_mod_plus_full. Qed.

(** X5.  Both update functions see a length modulo 2^32 only: two
    lengths that differ by a multiple of 2^32 give the same engine call,
    the same result and the same state. *)
Theorem update_length_wraps {E : HashEngine} (data : list byte) (len k : Z)
    (w : World Generic.we_Digest) (ws : World wc_Sha256) :
  Generic.we_digest_update data (len + k * 2 ^ 32) w
    = Generic.we_digest_update data len w /\
  Direct.we_sha256_update data (len + k * 2 ^ 32) ws
    = Direct.we_sha256_update data len ws.
Proof.
  unfold Generic.we_digest_update, Direct.we_sha256_update.
  rewrite word32_periodic. split; reflexivity.
Qed.

(** ** Any number of chunks *)

Lemma absorbed_true_lengths (bufs : list (list byte)) :
  Forall (fun b : list byte => Z.of_nat (length b) < 2 ^ 32) bufs ->
  absorbed (true_lengths bufs) = concat bufs.
Proof.
  induction 1 as [|b bufs Hb _ IH]; [reflexivity|].
  cbn [true_lengths map absorbed concat]. fold (true_lengths bufs).
  rewrite IH, word32_small by lia. rewrite Nat2Z.id.
  rewrite take_ge by lia. reflexivity.
Qed.

Section ReferenceDirect.
Variable digest_fn : wc_HashType -> list byte -> list byte.

Local Abbreviation RefE := (Reference.engine digest_fn Reference.no_failure).

Lemma direct_reference_updates (chunks : list (list byte * Z)) :
  forall (s : @wc_Sha256 RefE) (l : list EngineCall),
  exists l' : list EngineCall,
    updates (@Direct.we_sha256_update RefE) chunks (direct_ready s l)
    = Some (map (fun _ => 1) chunks,
            @direct_ready RefE (s ++ absorbed chunks) l').
Proof.
  induction chunks as [|[data len] rest IH]; intros s l.
  - exists l. cbn [updates absorbed map]. unfold pure.
    rewrite app_nil_r. reflexivity.
  - cbn [updates absorbed map].
    rewrite (bind_eq _ _ _ _ _ (direct_update_step data len s l)).
    edestruct IH as (l' & Hrest). rewrite (bind_eq _ _ _ _ _ Hrest).
    exists l'. unfold pure. cbn. rewrite <- app_assoc. reflexivity.
Qed.

Lemma direct_reference_session (chunks : list (list byte * Z))
    (s : @wc_Sha256 RefE) (l : list EngineCall) :
  digest_of (result (session (@Direct.we_sha256_init RefE)
                             Direct.we_sha256_update Direct.we_sha256_final
                             chunks (direct_ready s l)))
  = Some (1, digest_fn WC_HASH_TYPE_SHA256 (absorbed chunks)).
Proof.
  unfold session.
  rewrite (bind_eq _ _ _ _ _ (direct_init_step s l)).
  edestruct (direct_reference_updates chunks) as (l' & Hups).
  rewrite (bind_eq _ _ _ _ _ Hups).
  rewrite (bind_eq _ _ _ _ _ (direct_final_step _ _)).
  reflexivity.
Qed.

(** X6.  On the reference engine, buffers that are each shorter than
    2^32 bytes and are fed whole, one update per buffer, give the digest
    of their concatenation, on the generic path for every algorithm and on
    the fixed-function path; empty buffers and the number of updates make
    no difference. *)
Theorem digest_of_concatenation (alg : wc_HashType) (bufs : list (list byte))
    (d : @Generic.we_Digest RefE) (l : list EngineCall)
    (s : @wc_Sha256 RefE) (ls : list EngineCall) :
  Forall (fun b : list byte => Z.of_nat (length b) < 2 ^ 32) bufs ->
  digest_of (result (session (@Generic.we_init_of RefE alg)
                             Generic.we_digest_update Generic.we_digest_final
                             (true_lengths bufs) (Generic.ready d l)))
  = Some (1, digest_fn alg (concat bufs))
  /\ digest_of (result (session (@Direct.we_sha256_init RefE)
                                Direct.we_sha256_update Direct.we_sha256_final
                                (true_lengths bufs) (direct_ready s ls)))
  = Some (1, digest_fn WC_HASH_TYPE_SHA256 (concat bufs)).
Proof.
  intros Hlen.
  rewrite reference_session, direct_reference_session.
  rewrite absorbed_true_lengths by exact Hlen.
  split; reflexivity.
Qed.

End ReferenceDirect.

(** X6 at "ab", the empty buffer and "c", with SHA3-512 on the generic
    path. *)
Lemma digest_of_concatenation_witness :
  Forall (fun b : list byte => Z.of_nat (length b) < 2 ^ 32)
         [[x61; x62]; []; [x63]] /\
  (digest_of (result (session (@Generic.we_init_of sample_engine
                                 WC_HASH_TYPE_SHA3_512)
                              Generic.we_digest_update
                              Generic.we_digest_final
                              (true_lengths [[x61; x62]; []; [x63]])
                              (Generic.ready
                                 (sha256_session Reference.no_failure) [])))
   = Some (1, Reference.identity_digest WC_HASH_TYPE_SHA3_512
                (concat [[x61; x62]; []; [x63]]))
   /\ digest_of (result (session (@Direct.we_sha256_init sample_engine)
                                 Direct.we_sha256_update
                                 Direct.we_sha256_final
                                 (true_lengths [[x61; x62]; []; [x63]])
                                 (@direct_ready sample_engine [] [])))
   = Some (1, Reference.identity_digest WC_HASH_TYPE_SHA256
                (concat [[x61; x62]; []; [x63]]))).
Proof.
  assert (Hlen : Forall (fun b : list byte => Z.of_nat (length b) < 2 ^ 32)
                        [[x61; x62]; []; [x63]])
    by (repeat constructor).
  split; [exact Hlen|].
  exact (digest_of_concatenation Reference.identity_digest
           WC_HASH_TYPE_SHA3_512 [[x61; x62]; []; [x63]]
           (sha256_session Reference.no_failure) []
           ([] : @wc_Sha256 sample_engine) [] Hlen).
Defined.

(** ** Registration: return value, frame, composition *)

Lemma after_1 (rv : Z) : after 1 rv = rv.
Proof. reflexivity. Qed.

Lemma after_failed (ret rv : Z) : ret <> 1 -> after ret rv = ret.
Proof.
  intros Hne. unfold after, int_eq.
  destruct (Z.eqb_spec ret 1); [contradiction|reflexivity].
Qed.

Lemma fold_after (rets : list Z) :
  forall ret : Z,
    fold_left after rets ret
    = if int_eq ret 1 then first_non_one rets else ret.
Proof.
  induction rets as [|r rest IH]; intros ret; cbn [fold_left first_non_one].
  - unfold int_eq. destruct (Z.eqb_spec ret 1); congruence.
  - rewrite IH. unfold after, int_eq.
    destruct (Z.eqb_spec ret 1) as [->|Hne].
    + reflexivity.
    + destruct (Z.eqb_spec ret 1); [contradiction|reflexivity].
Qed.


Section RegistryExact.
Context {D : Type}.

(** A guarded setter through the global pointer, with its exact return
    value. *)
Lemma if_ok_global_set_exact (alg : wc_HashType) (ret rv : Z)
    (upd : EVP_MD D -> EVP_MD D) (p : positive) (m : EVP_MD D)
    (r : Registry D) :
  we_md r alg = Some p ->
  exists m' : EVP_MD D,
    if_ok ret (let* md := get_we_md alg in meth_set rv md upd) (put_meth p m r)
      = Some (after ret rv, put_meth p m' r) /\
    (after ret rv = 1 -> ret = 1 /\ m' = upd m).
Proof.
  intros Hg. unfold if_ok, after, int_eq.
  destruct (Z.eqb_spec ret 1) as [->|Hne].
  - unfold bind at 1, get_we_md. cbn [we_md put_meth]. rewrite Hg.
    destruct (meth_set_live rv upd p m r) as (m' & Hs & H1 & _).
    exists m'. split; [exact Hs|].
    intros R. split; [reflexivity|exact (H1 R)].
  - exists m. split; [reflexivity|]. intros R. contradiction.
Qed.

Lemma if_ok_meth_set_exact (ret rv : Z) (upd : EVP_MD D -> EVP_MD D)
    (p : positive) (m : EVP_MD D) (r : Registry D) :
  exists m' : EVP_MD D,
    if_ok ret (meth_set rv (Some p) upd) (put_meth p m r)
      = Some (after ret rv, put_meth p m' r).
Proof.
  unfold if_ok, after, int_eq. destruct (Z.eqb_spec ret 1) as [->|Hne].
  - destruct (meth_set_live rv upd p m r) as (m' & Hs & _).
    exists m'. exact Hs.
  - exists m. reflexivity.
Qed.

(** The closing release keeps every other descriptor and every global. *)
Lemma release_frame (alg : wc_HashType) (ret : Z) (p : positive)
    (m : EVP_MD D) (r : Registry D) :
  we_md r alg = Some p ->
  exists r' : Registry D,
    (let* md := get_we_md alg in
     let* _ := if int_ne ret 1 && bool_decide (md <> None)
               then EVP_MD_meth_free md else pure tt in
     pure ret) (put_meth p m r) = Some (ret, r') /\
    we_md r' = we_md r /\
    (forall q : positive, q <> p -> meths r' !! q = meths r !! q).
Proof.
  intros Hg. unfold bind at 1, get_we_md. cbn [we_md put_meth]. rewrite Hg.
  unfold int_ne. destruct (Z.eqb_spec ret 1) as [->|Hne]; cbn [negb andb].
  - exists (put_meth p m r). split; [reflexivity|].
    split; [reflexivity|]. intros q Hq. cbn [meths put_meth].
    apply lookup_insert_ne. congruence.
  - rewrite bool_decide_eq_true_2 by discriminate.
    unfold bind, EVP_MD_meth_free, bind, meth_load.
    cbn [meths we_md put_meth]. rewrite lookup_insert_eq.
    eexists. split; [reflexivity|]. cbn [meths we_md].
    split; [reflexivity|]. intros q Hq.
    rewrite lookup_delete_ne by congruence.
    apply lookup_insert_ne. congruence.
Qed.

End RegistryExact.

Section GenericRegistrationExact.
Context {E : HashEngine}.
Import Generic.

Ltac exact_step m' Hs :=
  lazymatch goal with
  | |- context [bind (if_ok ?ret (meth_set ?rv (Some ?p) ?upd)) _
                     (put_meth ?p ?m ?r)] =>
      destruct (if_ok_meth_set_exact ret rv upd p m r) as (m' & Hs);
      rewrite (bind_eq _ _ _ _ _ Hs)
  end.

Lemma we_init_digest_meth_ret (cfg : BuildConfig) (o : MethOutcome)
    (p : positive) (m : EVP_MD we_Digest) (r : Registry we_Digest) :
  exists m' : EVP_MD we_Digest,
    we_init_digest_meth cfg o (Some p) (put_meth p m r)
    = Some (fold_left after
              [set_update_ret o; set_final_ret o; set_cleanup_ret o;
               set_app_datasize_ret o] 1,
            put_meth p m' r).
Proof.
  cbn [fold_left]. rewrite after_1.
  unfold we_init_digest_meth, EVP_MD_meth_set_update, EVP_MD_meth_set_final,
    EVP_MD_meth_set_cleanup, EVP_MD_meth_set_app_datasize.
  lazymatch goal with
  | |- context [bind (meth_set ?rv (Some p) ?upd) _ (put_meth p m r)] =>
      destruct (meth_set_live rv upd p m r) as (m1 & Hs1 & _);
      rewrite (bind_eq _ _ _ _ _ Hs1)
  end.
  exact_step m2 Hs2. exact_step m3 Hs3. exact_step m4 Hs4.
  destruct (legacy_pkey cfg) as [bs|].
  - destruct (int_eq _ 1).
    + unfold legacy_pkey_setup, bind, meth_load, meth_store, pure.
      cbn [meths we_md put_meth]. rewrite lookup_insert_eq.
      eexists. unfold put_meth. cbn [meths we_md].
      rewrite insert_insert_eq. reflexivity.
    + exists m4. reflexivity.
  - exists m4. reflexivity.
Qed.

(** The shape of the registry after a registration: the return value, the
    globals and every descriptor other than the new one. *)
Lemma we_init_meth_shape (cfg : BuildConfig) (o : MethOutcome)
    (alg : wc_HashType) (nid : Z) (init : M (World we_Digest) Z) (size : Z)
    (r0 : Registry we_Digest) :
  exists r1 : Registry we_Digest,
    we_init_meth cfg o alg nid init size r0
    = Some (if meth_new_ok o then first_non_one (generic_steps o) else 0, r1)
    /\ we_md r1
       = <[alg := if meth_new_ok o then Some (fresh (dom (meths r0)))
                  else None]> (we_md r0)
    /\ (forall q : positive,
          q <> fresh (dom (meths r0)) -> meths r1 !! q = meths r0 !! q).
Proof.
  unfold we_init_meth, EVP_MD_meth_new.
  destruct (meth_new_ok o) eqn:Hnew.
  - unfold bind at 1. unfold bind at 1, set_we_md. cbn [meths we_md].
    set (p := fresh (dom (meths r0))).
    set (ra := {| meths := meths r0; we_md := <[alg := Some p]> (we_md r0) |}).
    assert (Hg : we_md ra alg = Some p) by apply fn_lookup_insert.
    match goal with
    | |- context [{| meths := <[p := ?m]> (meths r0); we_md := _ |}] =>
        change {| meths := <[p := m]> (meths r0);
                  we_md := <[alg := Some p]> (we_md r0) |}
          with (put_meth p m ra);
        set (m0 := m)
    end.
    unfold EVP_MD_meth_set_init, EVP_MD_meth_set_result_size.
    match goal with
    | |- context [bind (if_ok ?ret (bind (get_we_md alg)
                                          (fun md => meth_set ?rv md ?upd))) _
                       (put_meth p ?m ra)] =>
        destruct (if_ok_global_set_exact alg ret rv upd p m ra Hg)
          as (m1 & Hs1 & _);
        rewrite (bind_eq _ _ _ _ _ Hs1)
    end.
    match goal with
    | |- context [bind (if_ok ?ret (bind (get_we_md alg)
                                          (fun md => meth_set ?rv md ?upd))) _
                       (put_meth p ?m ra)] =>
        destruct (if_ok_global_set_exact alg ret rv upd p m ra Hg)
          as (m2 & Hs2 & _);
        rewrite (bind_eq _ _ _ _ _ Hs2)
    end.
    rewrite after_1.
    set (ret2 := after (set_init_ret o) (set_result_size_ret o)).
    assert (Hs3 : exists m3 : EVP_MD we_Digest,
               if_ok ret2 (let* md := get_we_md alg in
                           we_init_digest_meth cfg o md) (put_meth p m2 ra)
                 = Some (first_non_one (generic_steps o), put_meth p m3 ra)).
    { assert (Hret : first_non_one (generic_steps o)
                     = fold_left after
                         [set_update_ret o; set_final_ret o;
                          set_cleanup_ret o; set_app_datasize_ret o] ret2).
      { transitivity (fold_left after (generic_steps o) 1);
          [symmetry; exact (fold_after (generic_steps o) 1)|reflexivity]. }
      rewrite Hret. unfold if_ok.
      destruct (int_eq ret2 1) eqn:R2.
      - apply Z.eqb_eq in R2. rewrite R2.
        unfold bind at 1, get_we_md. cbn [we_md put_meth]. rewrite Hg.
        apply we_init_digest_meth_ret.
      - exists m2. rewrite fold_after, R2. reflexivity. }
    destruct Hs3 as (m3 & Hs3). rewrite (bind_eq _ _ _ _ _ Hs3).
    destruct (release_frame alg (first_non_one (generic_steps o)) p m3 ra Hg)
      as (r1 & Hrel & Hmd & Hframe).
    exists r1. split; [exact Hrel|]. split; [rewrite Hmd; reflexivity|].
    intros q Hq. rewrite (Hframe q Hq). reflexivity.
  - exists {| meths := meths r0; we_md := <[alg := None]> (we_md r0) |}.
    split; [|split; [reflexivity|intros q _; reflexivity]].
    unfold bind, set_we_md, if_ok, get_we_md, pure, int_eq, int_ne.
    cbn [we_md meths Z.eqb negb andb]. rewrite fn_lookup_insert.
    rewrite bool_decide_eq_false_2 by (intros H; apply H; reflexivity).
    reflexivity.
Qed.

Lemma we_init_meth_of_shape (alg : wc_HashType) (cfg : BuildConfig)
    (o : MethOutcome) (r0 : Registry we_Digest) :
  exists r1 : Registry we_Digest,
    we_init_meth_of alg cfg o r0
    = Some (if meth_new_ok o then first_non_one (generic_steps o) else 0, r1)
    /\ we_md r1
       = <[alg := if meth_new_ok o then Some (fresh (dom (meths r0)))
                  else None]> (we_md r0)
    /\ (forall q : positive,
          q <> fresh (dom (meths r0)) -> meths r1 !! q = meths r0 !! q).
Proof. destruct alg; apply we_init_meth_shape. Qed.

End GenericRegistrationExact.

Section RegistrationProperties.
Context {E : HashEngine}.
Import Generic.


(** X8.  A registration, successful or not, leaves the global pointers of
    the other algorithms and every descriptor that was already allocated
    as they were. *)
Theorem registration_frame (alg : wc_HashType) (cfg : BuildConfig)
    (o : MethOutcome) (r0 : Registry we_Digest) :
  exists (ret : Z) (r1 : Registry we_Digest),
    we_init_meth_of alg cfg o r0 = Some (ret, r1) /\
    (forall alg' : wc_HashType, alg' <> alg -> we_md r1 alg' = we_md r0 alg') /\
    (forall (q : positive) (md : EVP_MD we_Digest),
       meths r0 !! q = Some md -> meths r1 !! q = Some md).
Proof.
  destruct (we_init_meth_of_shape alg cfg o r0) as (r1 & Hrun & Hmd & Hframe).
  eexists _, r1. split; [exact Hrun|]. split.
  - intros alg' Hne. rewrite Hmd. apply fn_lookup_insert_ne. congruence.
  - intros q md Hq. rewrite Hframe; [exact Hq|].
    intros ->. apply (is_fresh (dom (meths r0))).
    apply elem_of_dom. eexists. exact Hq.
Qed.

Lemma register_two_success (cfg : BuildConfig) (alg1 alg2 : wc_HashType)
    (o1 o2 : MethOutcome) (r0 : Registry we_Digest) :
  result (register_two cfg alg1 alg2 o1 o2 r0) = Some (1, 1) ->
  exists (r2 : Registry we_Digest) (p1 p2 : positive)
         (md1 md2 : EVP_MD we_Digest),
    final_state (register_two cfg alg1 alg2 o1 o2 r0) = Some r2 /\
    p1 <> p2 /\
    we_md r2 alg2 = Some p2 /\
    (alg1 <> alg2 -> we_md r2 alg1 = Some p1) /\
    meths r2 !! p1 = Some md1 /\ meths r2 !! p2 = Some md2 /\
    md_init md1 = Some (we_init_of alg1) /\
    md_result_size md1 = wc_HashGetDigestSize alg1 /\
    md_init md2 = Some (we_init_of alg2) /\
    md_result_size md2 = wc_HashGetDigestSize alg2.
Proof.
  unfold register_two.
  destruct (we_init_meth_of_outcome alg1 cfg o1 r0)
    as (ret1 & r1 & Hrun1 & Hnomem1 & Hmem1).
  destruct (we_init_meth_of_outcome alg2 cfg o2 r1)
    as (ret2 & r2 & Hrun2 & Hnomem2 & Hmem2).
  destruct (we_init_meth_of_shape alg2 cfg o2 r1)
    as (r2' & Hrun2' & Hmd2 & Hframe2).
  rewrite Hrun2 in Hrun2'. injection Hrun2' as Hret2 <-.
  rewrite (bind_eq _ _ _ _ _ Hrun1), (bind_eq _ _ _ _ _ Hrun2).
  unfold pure. cbn [result final_state fmap option_fmap option_map fst snd].
  intros [= -> ->].
  destruct (meth_new_ok o1) eqn:Hnew1;
    [|destruct (Hnomem1 eq_refl) as (H01 & _); discriminate H01].
  destruct (meth_new_ok o2) eqn:Hnew2;
    [|destruct (Hnomem2 eq_refl) as (H01 & _); discriminate H01].
  destruct (Hmem1 eq_refl) as (Hg1 & _ & Hok1).
  destruct (Hok1 eq_refl) as (md1 & Hmd1 & Fi1 & Fs1 & _).
  destruct (Hmem2 eq_refl) as (Hg2 & _ & Hok2).
  destruct (Hok2 eq_refl) as (md2 & Hlk2 & Fi2 & Fs2 & _).
  set (p1 := fresh (dom (meths r0))) in *.
  set (p2 := fresh (dom (meths r1))) in *.
  assert (Hp : p1 <> p2).
  { intros Heq. apply (is_fresh (dom (meths r1))). fold p2. rewrite <- Heq.
    apply elem_of_dom. eexists. exact Hmd1. }
  exists r2, p1, p2, md1, md2.
  split; [reflexivity|]. split; [exact Hp|]. split; [exact Hg2|].
  split.
  { intros Hne. rewrite Hmd2, fn_lookup_insert_ne by congruence. exact Hg1. }
  split; [rewrite (Hframe2 p1 Hp); exact Hmd1|].
  repeat (split; [assumption|]). assumption.
Qed.

(** X9.  Two successful registrations of different algorithms compose:
    afterwards each algorithm's global points to its own live descriptor,
    at different addresses, each bound to its own initializer and digest
    size. *)
Theorem registrations_compose (cfg : BuildConfig) (alg1 alg2 : wc_HashType)
    (o1 o2 : MethOutcome) (r0 : Registry we_Digest) :
  alg1 <> alg2 ->
  result (register_two cfg alg1 alg2 o1 o2 r0) = Some (1, 1) ->
  exists (r2 : Registry we_Digest) (p1 p2 : positive)
         (md1 md2 : EVP_MD we_Digest),
    final_state (register_two cfg alg1 alg2 o1 o2 r0) = Some r2 /\
    p1 <> p2 /\
    we_md r2 alg1 = Some p1 /\ we_md r2 alg2 = Some p2 /\
    meths r2 !! p1 = Some md1 /\ meths r2 !! p2 = Some md2 /\
    md_init md1 = Some (we_init_of alg1) /\
    md_result_size md1 = wc_HashGetDigestSize alg1 /\
    md_init md2 = Some (we_init_of alg2) /\
    md_result_size md2 = wc_HashGetDigestSize alg2.
Proof.
  intros Hne Hrun.
  destruct (register_two_success cfg alg1 alg2 o1 o2 r0 Hrun)
    as (r2 & p1 & p2 & md1 & md2 & Hfin & Hp & Hg2 & Hg1 & H1 & H2 & F).
  exists r2, p1, p2, md1, md2.
  split; [exact Hfin|]. split; [exact Hp|]. split; [exact (Hg1 Hne)|].
  split; [exact Hg2|]. split; [exact H1|]. split; [exact H2|exact F].
Qed.


End RegistrationProperties.

(** X9 at SHA-256 followed by SHA3-512, from an empty registry. *)
Lemma registrations_compose_witness :
  WC_HASH_TYPE_SHA256 <> WC_HASH_TYPE_SHA3_512 /\
  result (@register_two sample_engine default_build WC_HASH_TYPE_SHA256
            WC_HASH_TYPE_SHA3_512 all_ok all_ok empty_registry)
  = Some (1, 1) /\
  exists (r2 : Registry (@Generic.we_Digest sample_engine))
         (p1 p2 : positive)
         (md1 md2 : EVP_MD (@Generic.we_Digest sample_engine)),
    final_state (register_two default_build WC_HASH_TYPE_SHA256
                   WC_HASH_TYPE_SHA3_512 all_ok all_ok empty_registry)
    = Some r2 /\
    p1 <> p2 /\
    we_md r2 WC_HASH_TYPE_SHA256 = Some p1 /\
    we_md r2 WC_HASH_TYPE_SHA3_512 = Some p2 /\
    meths r2 !! p1 = Some md1 /\ meths r2 !! p2 = Some md2 /\
    md_init md1 = Some (Generic.we_init_of WC_HASH_TYPE_SHA256) /\
    md_result_size md1 = wc_HashGetDigestSize WC_HASH_TYPE_SHA256 /\
    md_init md2 = Some (Generic.we_init_of WC_HASH_TYPE_SHA3_512) /\
    md_result_size md2 = wc_HashGetDigestSize WC_HASH_TYPE_SHA3_512.
Proof.
  split; [discriminate|]. split; [vm_compute; reflexivity|].
  apply (@registrations_compose sample_engine default_build
           WC_HASH_TYPE_SHA256 WC_HASH_TYPE_SHA3_512 all_ok all_ok
           empty_registry).
  - discriminate.
  - vm_compute; reflexivity.
Defined.


(** ** The fixed-function registration *)

Section DirectRegistration.
Context {E : HashEngine}.

Ltac direct_step m' Hs H1 Hg :=
  lazymatch goal with
  | |- context [bind (if_ok ?ret (bind (get_we_md ?alg)
                                        (fun md => meth_set ?rv md ?upd))) _
                     (put_meth ?p ?m ?r)] =>
      destruct (if_ok_global_set_exact alg ret rv upd p m r Hg)
        as (m' & Hs & H1);
      rewrite (bind_eq _ _ _ _ _ Hs)
  end.

(** X11.  The fixed-function registration returns 0 without memory and
    otherwise the first setter result other than 1, in the order init,
    update, final, cleanup, result size, application data size.  On
    success the descriptor behind we_sha256_md carries the four
    fixed-function callbacks, WC_SHA256_DIGEST_SIZE and the size of the
    SHA-256 handle.  On a failure after the allocation the descriptor is
    released and we_sha256_md keeps the released address. *)
Theorem direct_registration_outcome (cfg : BuildConfig) (o : MethOutcome)
    (r0 : Registry wc_Sha256) :
  exists r1 : Registry wc_Sha256,
    Direct.we_init_sha256_meth cfg o r0
    = Some (if meth_new_ok o then first_non_one (direct_steps o) else 0, r1)
    /\ (meth_new_ok o = false -> we_md r1 WC_HASH_TYPE_SHA256 = None)
    /\ (meth_new_ok o = true ->
        we_md r1 WC_HASH_TYPE_SHA256 = Some (fresh (dom (meths r0))) /\
        (first_non_one (direct_steps o) <> 1 ->
         meths r1 !! fresh (dom (meths r0)) = None) /\
        (first_non_one (direct_steps o) = 1 ->
         exists md : EVP_MD wc_Sha256,
           meths r1 !! fresh (dom (meths r0)) = Some md /\
           md_type md = NID_sha256 /\
           md_init md = Some Direct.we_sha256_init /\
           md_update md = Some Direct.we_sha256_update /\
           md_final md = Some Direct.we_sha256_final /\
           md_cleanup md = Some Direct.we_sha256_cleanup /\
           md_result_size md = WC_SHA256_DIGEST_SIZE /\
           md_app_datasize md = sizeof_wc_Sha256 cfg)).
Proof.
  unfold Direct.we_init_sha256_meth, EVP_MD_meth_new.
  cbv zeta.
  destruct (meth_new_ok o) eqn:Hnew.
  - unfold bind at 1. unfold bind at 1, set_we_md. cbn [meths we_md].
    set (p := fresh (dom (meths r0))).
    set (ra := {| meths := meths r0;
                  we_md := <[WC_HASH_TYPE_SHA256 := Some p]> (we_md r0) |}).
    assert (Hg : we_md ra WC_HASH_TYPE_SHA256 = Some p)
      by apply fn_lookup_insert.
    match goal with
    | |- context [{| meths := <[p := ?m]> (meths r0); we_md := _ |}] =>
        change {| meths := <[p := m]> (meths r0);
                  we_md := <[WC_HASH_TYPE_SHA256 := Some p]> (we_md r0) |}
          with (put_meth p m ra);
        set (m0 := m)
    end.
    unfold EVP_MD_meth_set_init, EVP_MD_meth_set_update,
      EVP_MD_meth_set_final, EVP_MD_meth_set_cleanup,
      EVP_MD_meth_set_result_size, EVP_MD_meth_set_app_datasize.
    direct_step m1 Hs1 H1 Hg. direct_step m2 Hs2 H2 Hg.
    direct_step m3 Hs3 H3 Hg. direct_step m4 Hs4 H4 Hg.
    direct_step m5 Hs5 H5 Hg. direct_step m6 Hs6 H6 Hg.
    assert (Hret : fold_left after (direct_steps o) 1
                   = first_non_one (direct_steps o))
      by exact (fold_after (direct_steps o) 1).
    cbn [fold_left direct_steps] in Hret. rewrite Hret in *.
    destruct (release_on_failure WC_HASH_TYPE_SHA256
                (first_non_one (direct_steps o)) p m6 ra Hg)
      as (r1 & Hrel & Hmd & Hok & Hko).
    exists r1. split; [exact Hrel|]. split; [discriminate|]. intros _.
    split; [rewrite Hmd; exact Hg|]. split; [exact Hko|].
    intros R. exists m6. rewrite (Hok R).
    split; [apply lookup_insert_eq|].
    destruct (H6 R) as [R5 ->]. destruct (H5 R5) as [R4 ->].
    destruct (H4 R4) as [R3 ->]. destruct (H3 R3) as [R2 ->].
    destruct (H2 R2) as [R1 ->]. destruct (H1 R1) as [_ ->].
    cbn. repeat split; reflexivity.
  - exists {| meths := meths r0;
              we_md := <[WC_HASH_TYPE_SHA256 := None]> (we_md r0) |}.
    split; [|split; [intros _; apply fn_lookup_insert|discriminate]].
    unfold bind, set_we_md, if_ok, get_we_md, pure, int_eq, int_ne.
    cbn [we_md meths Z.eqb negb andb]. rewrite fn_lookup_insert.
    rewrite bool_decide_eq_false_2 by (intros H; apply H; reflexivity).
    reflexivity.
Qed.

End DirectRegistration.

(** ** Results are booleans *)

Section BooleanResults.
Context {E : HashEngine}.

Lemma direct_null_result {A : Type} (c : EngineCall)
    (f : wc_Sha256 -> A * wc_Sha256) (on_null : A) (l : list EngineCall) :
  Direct.on_sha256 c f on_null {| md_data := None; calls := l |}
  = Some (on_null, {| md_data := None; calls := l ++ [c] |}).
Proof. reflexivity. Qed.

(** X12.  Whatever the engine answers, and whether or not the context has
    private data, the eight callbacks hand the caller 0 or 1 only: an
    engine status code never reaches the caller of init, update, final or
    cleanup on either path. *)
Theorem callbacks_return_booleans (cfg : BuildConfig) (alg : wc_HashType)
    (data : list byte) (len : Z) (w : World Generic.we_Digest)
    (ws : World wc_Sha256) :
  boolean_result (Generic.we_init_of alg w) /\
  boolean_result (Generic.we_digest_update data len w) /\
  boolean_result (result (Generic.we_digest_final w)) /\
  boolean_result (Generic.we_digest_cleanup cfg w) /\
  boolean_result (Direct.we_sha256_init ws) /\
  boolean_result (Direct.we_sha256_update data len ws) /\
  boolean_result (result (Direct.we_sha256_final ws)) /\
  boolean_result (Direct.we_sha256_cleanup ws).
Proof.
  assert (Hg : boolean_result (Generic.we_init_of alg w) /\
               boolean_result (Generic.we_digest_update data len w) /\
               boolean_result (result (Generic.we_digest_final w)) /\
               boolean_result (Generic.we_digest_cleanup cfg w)).
  { destruct w as [[d|] l].
    - change {| md_data := Some d; calls := l |} with (Generic.ready d l).
      rewrite we_init_of_step, we_digest_update_step, we_digest_final_step,
        we_digest_cleanup_step.
      repeat split; try apply status_to_result_bool.
      destruct (hash_free_compiled cfg);
        [apply status_to_result_bool|right; reflexivity].
    - rewrite we_digest_cleanup_null.
      repeat split; try (destruct alg; exact I); try exact I.
      right; reflexivity. }
  assert (Hd : boolean_result (Direct.we_sha256_init ws) /\
               boolean_result (Direct.we_sha256_update data len ws) /\
               boolean_result (result (Direct.we_sha256_final ws)) /\
               boolean_result (Direct.we_sha256_cleanup ws)).
  { destruct ws as [[s|] l].
    - change {| md_data := Some s; calls := l |} with (direct_ready s l).
      rewrite direct_init_step, direct_update_step, direct_final_step.
      repeat split; try apply status_to_result_bool.
      right; reflexivity.
    - unfold Direct.we_sha256_init, Direct.we_sha256_update,
        Direct.we_sha256_final, Direct.we_sha256_cleanup.
      rewrite !(bind_eq _ _ _ _ _ (direct_null_result _ _ _ l)).
      repeat split; try apply status_to_result_bool.
      right; reflexivity. }
  tauto.
Qed.

End BooleanResults.
